(** * MathPreview: the hover-preview coordinator of LaTeX-Workshop

    A shallow embedding of [src/providers/preview/mathpreview.ts].

    The class [MathPreview] owns one mutable field ([color]) and talks to a
    number of collaborators (the MathJax pool, the cursor renderer, the
    environment finder, the macro scanner, the logger, the host editor).
    Its methods are embedded as programs over a small effect signature:
    a synchronous call is a [Do] node, a call whose promise is awaited is an
    [Await] node.  Programs are run against a [World] (the field, the host's
    state) and a schedule that says, for each awaited promise, which host
    notifications are delivered while the method is suspended and how the
    promise settles. *)

From Stdlib Require Import QArith.
From stdpp Require Import base strings list gmap.
Close Scope Q_scope.

Set Default Proof Using "Type".

(** ** Data *)

(** JavaScript's line feed, used inside string literals of the source. *)
Definition nl : string := String (Ascii.ascii_of_nat 10) EmptyString.

(** A thrown value or the reason of a rejected promise. *)
Inductive Exn := Error (message : string).

(** Values stored in the host's configuration.  The casts [as number] and
    [as boolean] of the source are erased at run time, so a branch on a
    configuration value is a branch on its truthiness. *)
Inductive JsValue :=
| JsUndefined
| JsNull
| JsBool (b : bool)
| JsNumber (q : Q)
| JsString (s : string).

Definition truthy (v : JsValue) : bool :=
  match v with
  | JsUndefined | JsNull => false
  | JsBool b => b
  | JsNumber q => negb (Qeq_bool q 0%Q)
  | JsString s => negb (String.eqb s "")
  end.

Record Position := { line : nat; character : nat }.
Record Range := { range_start : Position; range_end : Position }.

(** [TexMathEnv] of mathpreviewlib/texmathenvfinder. *)
Record TexMathEnv := { texString : string; range : Range; envname : string }.

Record PrevIndex := { refNumber : string; pageNumber : string }.

(** [ReferenceEntry] of completer/reference: the fields the coordinator
    reads. *)
Record ReferenceEntry := {
  label : string;
  documentation : string;
  file : string;
  position : Position;
  prevIndex : option PrevIndex
}.

Record MarkdownString := { value : string; isTrusted : bool }.

Inductive MarkedString :=
| Plain (s : string)
| Markdown (m : MarkdownString).

Record Hover := { contents : list MarkedString; hover_range : option Range }.

(** The options object handed to [MathJaxPool.typeset]. *)
Record TypesetOpts := { scale : JsValue; color : string }.

(** What [generateSVG] resolves to. *)
Record SvgResult := { svgDataUrl : string; newCommands : string }.

Record CancellationToken := { isCancellationRequested : bool }.

(** A document handed to the finder: a live [vscode.TextDocument] of the
    host, or a [TextDocumentLike] built from a file's text.  The latter is a
    JavaScript object, so it carries the identity it was allocated with. *)
Inductive Document :=
| TextDocument (fsPath : string) (text : string)
| TextDocumentLike (id : nat) (text : string).

(** A [WorkspaceConfiguration] object. *)
Definition config_get (configuration : gmap string JsValue) (key : string) : JsValue :=
  default JsUndefined (configuration !! key).

(** ** Effects *)

(** Calls that return at once. *)
Inductive Sync : Type → Type :=
| GetConfiguration (section : string) : Sync (gmap string JsValue)
| GetCurrentThemeLightness : Sync string
| ReadColor : Sync string
| WriteColor (c : string) : Sync unit
| RenderCursor (document : Document) (r : Range) (c : string) : Sync string
| FinderFindHoverOnTex (document : Document) (p : Position) : Sync (option TexMathEnv)
| FinderFindHoverOnRef (document : Document) (p : Position) (refData : ReferenceEntry)
    (token : string) : Sync (option TexMathEnv)
| FinderFindMathEnvIncludingPosition (document : Document) (p : Position) :
    Sync (option TexMathEnv)
| GetWordRangeAtPosition (document : Document) (p : Position) (regex : string) :
    Sync (option Range)
| LogOnRejected (e : Exn) : Sync unit
| AddLogMessage (message : string) : Sync unit
| OpenDocumentLookup (path : string) : Sync (option Document)
| CacheLookup (path : string) : Sync (option Document)
| CacheStore (path : string) (d : Document) : Sync unit
| ReadFile (path : string) : Sync (option string)
| NewTextDocumentLike (text : string) : Sync Document.

(** Calls that return a promise which the caller awaits. *)
Inductive Async : Type → Type :=
| Typeset (arg : string) (opts : TypesetOpts) : Async string
| FindProjectNewCommand (ctoken : option CancellationToken) : Async string
| ProvideHoverPreviewOnRef (tex : TexMathEnv) (newCommands : string)
    (refData : ReferenceEntry) (c : string) : Async Hover.

(** Programs: finite trees of calls.  The continuation of an [Await] gets
    the settlement of the promise, a rejection ([inl]) or a value ([inr]). *)
Inductive Prog (A : Type) : Type :=
| Ret (a : A)
| Throw (e : Exn)
| Do {X : Type} (c : Sync X) (k : X → Prog A)
| Await {X : Type} (c : Async X) (k : Exn + X → Prog A).

Arguments Ret {A} a.
Arguments Throw {A} e.
Arguments Do {A X} c k.
Arguments Await {A X} c k.

Fixpoint bind {A B : Type} (p : Prog A) (f : A → Prog B) : Prog B :=
  match p with
  | Ret a => f a
  | Throw e => Throw e
  | Do c k => Do c (λ x, bind (k x) f)
  | Await c k => Await c (λ r, bind (k r) f)
  end.

#[global] Instance prog_ret : MRet Prog := @Ret.
#[global] Instance prog_bind : MBind Prog := λ A B f p, bind p f.

(** [c(...)] for a synchronous collaborator call. *)
Definition call {X : Type} (c : Sync X) : Prog X := Do c Ret.

(** [await c(...)]: a rejection is thrown at the [await]. *)
Definition await {X : Type} (c : Async X) : Prog X :=
  Await c (λ r, match r with inl e => Throw e | inr x => Ret x end).

(** [try { p } catch (e) { h e }]. *)
Fixpoint try_catch {A : Type} (p : Prog A) (h : Exn → Prog A) : Prog A :=
  match p with
  | Ret a => Ret a
  | Throw e => h e
  | Do c k => Do c (λ x, try_catch (k x) h)
  | Await c k => Await c (λ r, try_catch (k r) h)
  end.

(** ** The world a program runs in *)

Record World := {
  w_color : string;                 (* the field [MathPreview.color] *)
  w_theme : string;                 (* what [getCurrentThemeLightness] reports *)
  w_config : gmap string JsValue;   (* the 'latex-workshop' configuration *)
  w_open : gmap string Document;    (* documents open in the host, by path *)
  w_files : gmap string string;     (* readable files, by path *)
  w_cache : gmap string Document;   (* projected documents, by path *)
  w_next_id : nat                   (* next object identity *)
}.

Definition set_color (c : string) (w : World) : World :=
  {| w_color := c; w_theme := w_theme w; w_config := w_config w; w_open := w_open w;
     w_files := w_files w; w_cache := w_cache w; w_next_id := w_next_id w |}.

Definition set_theme (t : string) (w : World) : World :=
  {| w_color := w_color w; w_theme := t; w_config := w_config w; w_open := w_open w;
     w_files := w_files w; w_cache := w_cache w; w_next_id := w_next_id w |}.

Definition set_config (cfg : gmap string JsValue) (w : World) : World :=
  {| w_color := w_color w; w_theme := w_theme w; w_config := cfg; w_open := w_open w;
     w_files := w_files w; w_cache := w_cache w; w_next_id := w_next_id w |}.

Definition set_open (o : gmap string Document) (w : World) : World :=
  {| w_color := w_color w; w_theme := w_theme w; w_config := w_config w; w_open := o;
     w_files := w_files w; w_cache := w_cache w; w_next_id := w_next_id w |}.

Definition set_files (f : gmap string string) (w : World) : World :=
  {| w_color := w_color w; w_theme := w_theme w; w_config := w_config w; w_open := w_open w;
     w_files := f; w_cache := w_cache w; w_next_id := w_next_id w |}.

Definition set_cache (c : gmap string Document) (w : World) : World :=
  {| w_color := w_color w; w_theme := w_theme w; w_config := w_config w; w_open := w_open w;
     w_files := w_files w; w_cache := c; w_next_id := w_next_id w |}.

Definition set_next_id (n : nat) (w : World) : World :=
  {| w_color := w_color w; w_theme := w_theme w; w_config := w_config w; w_open := w_open w;
     w_files := w_files w; w_cache := w_cache w; w_next_id := n |}.

(** The collaborators whose code is outside this file and which the
    coordinator uses as functions: the string utilities of
    [MathPreviewUtils] and [utils/svg], the cursor renderer, the environment
    finder and the host's word lookup.  [synctexLink l f] is the text of
    [Uri.parse('command:latex-workshop.synctexto').with({query:
    JSON.stringify([l, f])})]. *)
Record Collaborators := {
  mathjaxify : string → string → string;
  stripTeX : string → string;
  addDummyCodeBlock : string → string;
  svgToDataUrl : string → string;
  synctexLink : nat → string → string;
  cursorRenderer_renderCursor : Document → Range → string → string;
  texMathEnvFinder_findHoverOnTex : Document → Position → option TexMathEnv;
  texMathEnvFinder_findHoverOnRef :
    Document → Position → ReferenceEntry → string → option TexMathEnv;
  texMathEnvFinder_findMathEnvIncludingPosition :
    Document → Position → option TexMathEnv;
  document_getWordRangeAtPosition : Document → Position → string → option Range
}.

(** What the host does while a method is suspended. *)
Inductive HostEvent :=
| ThemeChanged (lightness : string)
| ConfigurationChanged (key : string) (v : JsValue)
| FileWritten (path : string) (text : string)
| FileRemoved (path : string)
| DocumentOpened (path : string) (text : string)
| DocumentClosed (path : string).

(** One awaited promise: the notifications delivered before it settles and
    the settlement, which may depend on the call. *)
Record Settlement := {
  during : list HostEvent;
  settle : ∀ X : Type, Async X → Exn + X
}.

(** What an observer of a run sees. *)
Inductive Act :=
| Called {X : Type} (c : Sync X) (x : X)
| Submitted {X : Type} (c : Async X)
| Settled {X : Type} (c : Async X) (r : Exn + X).

Inductive Event :=
| Op (a : Act)            (* done by the method that is running *)
| Host (h : HostEvent)    (* done by the host *)
| Listener (a : Act).     (* done by the registered listener *)

(** How a turn ends: with a value, with an exception, or suspended at an
    [await] with the rest of the method still to run. *)
Inductive Outcome (A : Type) : Type :=
| Returned (a : A)
| Thrown (e : Exn)
| Pending {X : Type} (c : Async X) (k : Exn + X → Prog A).

Arguments Returned {A} a.
Arguments Thrown {A} e.
Arguments Pending {A X} c k.

(** ** Reading a trace *)

Definition act_of (e : Event) : option Act :=
  match e with
  | Op a | Listener a => Some a
  | Host _ => None
  end.

(** The requests handed to the typesetting engine by the running method. *)
Definition typeset_submitted (e : Event) : option (string * TypesetOpts) :=
  match e with
  | Op (Submitted c) =>
      match c with
      | Typeset arg opts => Some (arg, opts)
      | _ => None
      end
  | _ => None
  end.

(** The requests the engine has answered. *)
Definition typeset_settled (e : Event) : option (string * TypesetOpts) :=
  match e with
  | Op (Settled c _) =>
      match c with
      | Typeset arg opts => Some (arg, opts)
      | _ => None
      end
  | _ => None
  end.

(** The project-wide macro scans that were started. *)
Definition scan_started (e : Event) : option (option CancellationToken) :=
  match e with
  | Op (Submitted c) =>
      match c with
      | FindProjectNewCommand ctoken => Some ctoken
      | _ => None
      end
  | _ => None
  end.


(** The invocations of the cursor renderer, by whoever made them. *)
Definition cursor_rendered (e : Event) : option (Document * Range * string) :=
  match act_of e with
  | Some (Called c _) =>
      match c with
      | RenderCursor d r col => Some (d, r, col)
      | _ => None
      end
  | _ => None
  end.

(** The assignments to the field [color] made by the running method. *)
Definition color_written_by_op (e : Event) : option string :=
  match e with
  | Op (Called c _) =>
      match c with
      | WriteColor col => Some col
      | _ => None
      end
  | _ => None
  end.

(** The files the running method has read with success, by path. *)
Definition file_loaded (e : Event) : option string :=
  match e with
  | Op (Called c x) =>
      match c in Sync X return X → option string with
      | ReadFile path => λ x, match x with Some _ => Some path | None => None end
      | _ => λ _, None
      end x
  | _ => None
  end.

(** The documents the label finder was run on. *)
Definition finder_document (e : Event) : option Document :=
  match e with
  | Op (Called c _) =>
      match c with
      | FinderFindHoverOnRef d _ _ _ => Some d
      | _ => None
      end
  | _ => None
  end.

(** What the host and the listener it notifies leave in a trace. *)
Definition made_by_host (e : Event) : bool :=
  match e with
  | Host _ => true
  | Listener (Called c _) =>
      match c with
      | GetCurrentThemeLightness | WriteColor _ => true
      | _ => false
      end
  | _ => false
  end.

Definition typeset_submissions (tr : list Event) := omap typeset_submitted tr.
Definition typeset_settlements (tr : list Event) := omap typeset_settled tr.
Definition scans (tr : list Event) := omap scan_started tr.
Definition cursor_calls (tr : list Event) := omap cursor_rendered tr.
Definition color_writes_by_op (tr : list Event) := omap color_written_by_op tr.
Definition file_loads (tr : list Event) := omap file_loaded tr.
Definition finder_documents (tr : list Event) := omap finder_document tr.

(** What a call hands to the logger: the rejection given to
    [logOnRejected] or the text given to [addLogMessage]. *)
Definition logged_by {X : Type} (c : Sync X) : option (Exn + string) :=
  match c with
  | LogOnRejected e => Some (inl e)
  | AddLogMessage message => Some (inr message)
  | _ => None
  end.

Definition log_message (e : Event) : option (Exn + string) :=
  match act_of e with
  | Some (Called c _) => logged_by c
  | _ => None
  end.

(** The previews the running method asked the reference provider for. *)
Definition preview_submitted (e : Event)
  : option (TexMathEnv * string * ReferenceEntry * string) :=
  match e with
  | Op (Submitted c) =>
      match c with
      | ProvideHoverPreviewOnRef tex nc refData col => Some (tex, nc, refData, col)
      | _ => None
      end
  | _ => None
  end.

Definition logged (tr : list Event) := omap log_message tr.
Definition previews (tr : list Event) := omap preview_submitted tr.

(** The value of the field after a trace, [cur] being its value before. *)
Fixpoint color_after (cur : string) (tr : list Event) : string :=
  match tr with
  | [] => cur
  | e :: tr' =>
      match act_of e with
      | Some (Called c _) =>
          match c with
          | WriteColor col => color_after col tr'
          | _ => color_after cur tr'
          end
      | _ => color_after cur tr'
      end
  end.

(** Every read of the field sees the value of the latest assignment:
    [cur] is the field's value before the trace. *)
Fixpoint reads_current (cur : string) (tr : list Event) : Prop :=
  match tr with
  | [] => True
  | e :: tr' =>
      match act_of e with
      | Some (Called c x) =>
          match c in Sync X return X → Prop with
          | ReadColor => λ x, x = cur ∧ reads_current cur tr'
          | WriteColor col => λ _, reads_current col tr'
          | _ => λ _, reads_current cur tr'
          end x
      | _ => reads_current cur tr'
      end
  end.

(** The color a program may assign to the field: [written c] is what the
    call [c] assigns, if anything. *)
Definition written {X : Type} (c : Sync X) : option string :=
  match c with
  | WriteColor col => Some col
  | _ => None
  end.

(** [ColorWrites P p]: every assignment to the field that [p] can make,
    on any path, assigns a color satisfying [P]. *)
Inductive ColorWrites (P : string → Prop) {A : Type} : Prog A → Prop :=
| cw_ret a : ColorWrites P (Ret a)
| cw_throw e : ColorWrites P (Throw e)
| cw_do {X : Type} (c : Sync X) k :
    (∀ col, written c = Some col → P col) →
    (∀ x, ColorWrites P (k x)) →
    ColorWrites P (Do c k)
| cw_await {X : Type} (c : Async X) k :
    (∀ r, ColorWrites P (k r)) →
    ColorWrites P (Await c k).

(** A program that never assigns the field. *)
Definition NoColorWrite {A : Type} (p : Prog A) : Prop := ColorWrites (λ _, False) p.

(** The two foreground colors. *)
Definition two_valued (col : string) : Prop := col = "#000000" ∨ col = "#ffffff".

(** [EverySync Q p]: every synchronous call that [p] can make, on any
    path, satisfies [Q]. *)
Inductive EverySync (Q : ∀ X : Type, Sync X → Prop) {A : Type} : Prog A → Prop :=
| es_ret a : EverySync Q (Ret a)
| es_throw e : EverySync Q (Throw e)
| es_do {X : Type} (c : Sync X) k :
    Q X c →
    (∀ x, EverySync Q (k x)) →
    EverySync Q (Do c k)
| es_await {X : Type} (c : Async X) k :
    (∀ r, EverySync Q (k r)) →
    EverySync Q (Await c k).

(** The calls that change the world: the assignment to the field and the
    two steps by which a projected document enters the cache. *)
Definition mutates {X : Type} (c : Sync X) : bool :=
  match c with
  | WriteColor _ | CacheStore _ _ | NewTextDocumentLike _ => true
  | _ => false
  end.

(** The field agrees with the theme: it holds the foreground that goes
    with the lightness the host reports. *)
Definition in_sync (w : World) : Prop :=
  w_color w = if String.eqb (w_theme w) "light" then "#000000" else "#ffffff".

(** ** The methods of [MathPreview] *)

Section MathPreview.

Variable C : Collaborators.

(** Lines 40-42: [findProjectNewCommand(ctoken)] hands back the scanner's
    promise. *)
Definition findProjectNewCommand (ctoken : option CancellationToken) : Prog string :=
  await (FindProjectNewCommand ctoken).

(** Lines 44-60.  [this.color] is read twice, for the cursor renderer and
    for the options object, both times before the [await]. *)
Definition provideHoverOnTex (document : Document) (tex : TexMathEnv) (newCommand : string)
  : Prog Hover :=
  configuration ← call (GetConfiguration "latex-workshop");
  let scale := config_get configuration "hover.preview.scale" in
  c ← call ReadColor;
  s ← call (RenderCursor document (range tex) c);
  let s := mathjaxify C s (envname tex) in
  let typesetArg := newCommand +:+ stripTeX C s in
  c ← call ReadColor;
  let typesetOpts := {| scale := scale; color := c |} in
  try_catch
    (xml ← await (Typeset typesetArg typesetOpts);
     let md := svgToDataUrl C xml in
     Ret {| contents :=
              [Markdown {| value := addDummyCodeBlock C ("![equation](" +:+ md +:+ ")");
                           isTrusted := false |}];
            hover_range := Some (range tex) |})
    (λ e,
       call (LogOnRejected e);;
       call (AddLogMessage ("Error when MathJax is rendering " +:+ typesetArg));;
       Throw e).

(** Lines 90-97.  [prevIndex] is an object when present, hence truthy. *)
Definition refNumberMessage (refData : ReferenceEntry) : option string :=
  match prevIndex refData with
  | Some p =>
      let refNum := refNumber p in
      let refMessage := "numbered " +:+ refNum +:+ " at last compilation" in
      Some refMessage
  | None => None
  end.

(** Lines 81-87, the end of [provideHoverOnRef], reached when no preview
    is rendered.  The setting is looked up only if there is a message
    ([&&] evaluates its right operand only then). *)
Definition provideHoverOnRef_text (document : Document) (p : Position)
    (refData : ReferenceEntry) (configuration : gmap string JsValue)
    (mdLink : MarkdownString) : Prog Hover :=
  let md := "```latex" +:+ nl +:+ documentation refData +:+ nl +:+ "```" +:+ nl in
  refRange ← call (GetWordRangeAtPosition document p "\{.*?\}");
  match refNumberMessage refData with
  | Some message =>
      if truthy (config_get configuration "hover.ref.number.enabled")
      then Ret {| contents := [Plain md; Plain message; Markdown mdLink];
                  hover_range := refRange |}
      else Ret {| contents := [Plain md; Markdown mdLink]; hover_range := refRange |}
  | None => Ret {| contents := [Plain md; Markdown mdLink]; hover_range := refRange |}
  end.

(** Lines 62-80.  [this.color] is read after the scan has been awaited. *)
Definition provideHoverOnRef (document : Document) (p : Position)
    (refData : ReferenceEntry) (token : string) (ctoken : CancellationToken) : Prog Hover :=
  configuration ← call (GetConfiguration "latex-workshop");
  let line := line (position refData) in
  let link := synctexLink C line (file refData) in
  let mdLink := {| value := "[View on pdf](" +:+ link +:+ ")"; isTrusted := true |} in
  if truthy (config_get configuration "hover.ref.enabled")
  then
    tex ← call (FinderFindHoverOnRef document p refData token);
    match tex with
    | Some tex =>
        newCommands ← findProjectNewCommand (Some ctoken);
        c ← call ReadColor;
        await (ProvideHoverPreviewOnRef tex newCommands refData c)
    | None => provideHoverOnRef_text document p refData configuration mdLink
    end
  else provideHoverOnRef_text document p refData configuration mdLink.

(** Lines 99-106.  [??] takes its right operand only when the left one is
    [undefined] (or [null]): an empty override is an override. *)
Definition generateSVG (tex : TexMathEnv) (newCommandsArg : option string) : Prog SvgResult :=
  newCommands ← match newCommandsArg with
                 | Some given => Ret given
                 | None => await (FindProjectNewCommand None)
                 end;
  configuration ← call (GetConfiguration "latex-workshop");
  let scale := config_get configuration "hover.preview.scale" in
  let s := mathjaxify C (texString tex) (envname tex) in
  c ← call ReadColor;
  xml ← await (Typeset (newCommands +:+ stripTeX C s) {| scale := scale; color := c |});
  Ret {| svgDataUrl := svgToDataUrl C xml; newCommands := newCommands |}.

(** Lines 108-115. *)
Definition getColor : Prog unit :=
  lightness ← call GetCurrentThemeLightness;
  if String.eqb lightness "light"
  then call (WriteColor "#000000")
  else call (WriteColor "#ffffff").

(** Lines 117-119. *)
Definition renderCursor (document : Document) (r : Range) : Prog string :=
  c ← call ReadColor;
  call (RenderCursor document r c).

(** Lines 121-123. *)
Definition findHoverOnTex (document : Document) (p : Position) : Prog (option TexMathEnv) :=
  call (FinderFindHoverOnTex document p).

(** Lines 139-141. *)
Definition findMathEnvIncludingPosition (document : Document) (p : Position)
  : Prog (option TexMathEnv) :=
  call (FinderFindMathEnvIncludingPosition document p).

(** Lines 21 and 32: the field initialiser of [color], and the listener
    the constructor registers with [vscode.workspace.onDidChangeConfiguration]. *)
Definition constructor_color : string := "#000000".
Definition onDidChangeConfiguration_listener : Prog unit := getColor.

(** Modelled from the spec: [TextDocumentLike.load] (mathpreviewlib/
    textdocumentlike) is not part of this file.  Section 4.5 resolves the
    owning document of a path as "live if already open in the host, else a
    projected load, cached by file path", and the design notes ask for a
    keyed cache (path to document) with a "load once, reuse" policy and no
    eviction.  A file that cannot be read makes the load fail with the
    ResourceUnavailable outcome of section 7; nothing is cached then. *)
Definition TextDocumentLike_load (path : string) : Prog Document :=
  live ← call (OpenDocumentLookup path);
  match live with
  | Some d => Ret d
  | None =>
      cached ← call (CacheLookup path);
      match cached with
      | Some d => Ret d
      | None =>
          text ← call (ReadFile path);
          match text with
          | Some text =>
              d ← call (NewTextDocumentLike text);
              call (CacheStore path d);;
              Ret d
          | None => Throw (Error "ResourceUnavailable")
          end
      end
  end.

(** Lines 125-132. *)
Definition findHoverOnRef (refData : ReferenceEntry) (token : string)
  : Prog (option TexMathEnv) :=
  document ← TextDocumentLike_load (file refData);
  let position := position refData in
  call (FinderFindHoverOnRef document position refData token).

(** Modelled from the spec: [HoverPreviewOnRefProvider.renderSvgOnRef]
    (mathpreviewlib/hoverpreviewonref) is not part of this file.  Section 4.5:
    once the region is found and the macro preamble fetched, the coordinator
    "skips cursor annotation (no cursor concept applies to a remote
    reference), and submits to the Pool with the current color snapshot";
    section 2: what is submitted is macros, raw source, color and scale;
    section 7: a rejected render is "surfaced to the end caller, logged".
    The raw text is prepared for the engine as [generateSVG] does, and a
    rejection is logged and thrown again as [provideHoverOnTex] does. *)
Definition hoverPreviewOnRefProvider_renderSvgOnRef (tex : TexMathEnv)
    (newCommand : string) (refData : ReferenceEntry) (c : string) : Prog string :=
  configuration ← call (GetConfiguration "latex-workshop");
  let scale := config_get configuration "hover.preview.scale" in
  let s := mathjaxify C (texString tex) (envname tex) in
  let typesetArg := newCommand +:+ stripTeX C s in
  try_catch
    (xml ← await (Typeset typesetArg {| scale := scale; color := c |});
     Ret (svgToDataUrl C xml))
    (λ e,
       call (LogOnRejected e);;
       call (AddLogMessage ("Error when MathJax is rendering " +:+ typesetArg));;
       Throw e).

(** Lines 134-137.  [this.color] is read after the scan has been awaited. *)
Definition renderSvgOnRef (tex : TexMathEnv) (refData : ReferenceEntry)
    (ctoken : CancellationToken) : Prog string :=
  newCommand ← findProjectNewCommand (Some ctoken);
  c ← call ReadColor;
  hoverPreviewOnRefProvider_renderSvgOnRef tex newCommand refData c.

(** ** Running a program *)

(** The answer of a synchronous call and its effect on the world. *)
Definition handle {X : Type} (c : Sync X) (w : World) : X * World :=
  match c in Sync X return X * World with
  | GetConfiguration _ => (w_config w, w)
  | GetCurrentThemeLightness => (w_theme w, w)
  | ReadColor => (w_color w, w)
  | WriteColor c => (tt, set_color c w)
  | RenderCursor d r c => (cursorRenderer_renderCursor C d r c, w)
  | FinderFindHoverOnTex d p => (texMathEnvFinder_findHoverOnTex C d p, w)
  | FinderFindHoverOnRef d p refData token =>
      (texMathEnvFinder_findHoverOnRef C d p refData token, w)
  | FinderFindMathEnvIncludingPosition d p =>
      (texMathEnvFinder_findMathEnvIncludingPosition C d p, w)
  | GetWordRangeAtPosition d p regex => (document_getWordRangeAtPosition C d p regex, w)
  | LogOnRejected _ => (tt, w)
  | AddLogMessage _ => (tt, w)
  | OpenDocumentLookup path => (w_open w !! path, w)
  | CacheLookup path => (w_cache w !! path, w)
  | CacheStore path d => (tt, set_cache (<[path := d]> (w_cache w)) w)
  | ReadFile path => (w_files w !! path, w)
  | NewTextDocumentLike text =>
      (TextDocumentLike (w_next_id w) text, set_next_id (S (w_next_id w)) w)
  end.

Definition emit {E A : Type} (es : list E) (r : list E * World * Outcome A)
  : list E * World * Outcome A :=
  (es ++ r.1.1, r.1.2, r.2).

(** One turn of the event loop: a program runs until it returns, throws or
    reaches its first [await]. *)
Fixpoint run_sync {A : Type} (p : Prog A) (w : World) : list Act * World * Outcome A :=
  match p with
  | Ret a => ([], w, Returned a)
  | Throw e => ([], w, Thrown e)
  | Do c k =>
      let xw := handle c w in
      emit [Called c xw.1] (run_sync (k xw.1) xw.2)
  | Await c k => ([Submitted c], w, Pending c k)
  end.

(** The listener registered by the constructor runs in a turn of its own. *)
Definition fire_onDidChangeConfiguration (w : World) : list Event * World :=
  let r := run_sync onDidChangeConfiguration_listener w in
  (Listener <$> r.1.1, r.1.2).

(** A host event changes the host's part of the world; a change of theme
    or of a setting is announced through [onDidChangeConfiguration] (the
    theme is the setting workbench.colorTheme). *)
Definition host_step (h : HostEvent) (w : World) : list Event * World :=
  match h with
  | ThemeChanged lightness =>
      let r := fire_onDidChangeConfiguration (set_theme lightness w) in
      (Host h :: r.1, r.2)
  | ConfigurationChanged key v =>
      let r := fire_onDidChangeConfiguration (set_config (<[key := v]> (w_config w)) w) in
      (Host h :: r.1, r.2)
  | FileWritten path text => ([Host h], set_files (<[path := text]> (w_files w)) w)
  | FileRemoved path => ([Host h], set_files (delete path (w_files w)) w)
  | DocumentOpened path text =>
      ([Host h], set_open (<[path := TextDocument path text]> (w_open w)) w)
  | DocumentClosed path => ([Host h], set_open (delete path (w_open w)) w)
  end.

Fixpoint host_steps (hs : list HostEvent) (w : World) : list Event * World :=
  match hs with
  | [] => ([], w)
  | h :: hs' =>
      let r := host_step h w in
      let r' := host_steps hs' r.2 in
      (r.1 ++ r'.1, r'.2)
  end.

(** A method call from start to end.  At each [await] the next settlement
    of the schedule says what the host does meanwhile and how the promise
    settles; with no settlement left the call stays pending. *)
Fixpoint exec {A : Type} (p : Prog A) (sched : list Settlement) (w : World)
  : list Event * World * Outcome A :=
  match p with
  | Ret a => ([], w, Returned a)
  | Throw e => ([], w, Thrown e)
  | Do c k =>
      let xw := handle c w in
      emit [Op (Called c xw.1)] (exec (k xw.1) sched xw.2)
  | Await c k =>
      match sched with
      | [] => ([Op (Submitted c)], w, Pending c k)
      | s :: sched' =>
          let hw := host_steps (during s) w in
          let r := settle s _ c in
          emit (Op (Submitted c) :: hw.1 ++ [Op (Settled c r)]) (exec (k r) sched' hw.2)
      end
  end.

Definition trace_of {A : Type} (r : list Event * World * Outcome A) : list Event := r.1.1.
Definition world_of {A : Type} (r : list Event * World * Outcome A) : World := r.1.2.
Definition outcome_of {A : Type} (r : list Event * World * Outcome A) : Outcome A := r.2.

(** ** The coordinator as a whole *)

(** The public operations of the class with their arguments. *)
Inductive Operation :=
| OpFindProjectNewCommand (ctoken : option CancellationToken)
| OpProvideHoverOnTex (document : Document) (tex : TexMathEnv) (newCommand : string)
| OpProvideHoverOnRef (document : Document) (p : Position) (refData : ReferenceEntry)
    (token : string) (ctoken : CancellationToken)
| OpGenerateSVG (tex : TexMathEnv) (newCommandsArg : option string)
| OpGetColor
| OpRenderCursor (document : Document) (r : Range)
| OpFindHoverOnTex (document : Document) (p : Position)
| OpFindHoverOnRef (refData : ReferenceEntry) (token : string)
| OpRenderSvgOnRef (tex : TexMathEnv) (refData : ReferenceEntry) (ctoken : CancellationToken)
| OpFindMathEnvIncludingPosition (document : Document) (p : Position).

Definition op_result (o : Operation) : Type :=
  match o with
  | OpFindProjectNewCommand _ => string
  | OpProvideHoverOnTex _ _ _ => Hover
  | OpProvideHoverOnRef _ _ _ _ _ => Hover
  | OpGenerateSVG _ _ => SvgResult
  | OpGetColor => unit
  | OpRenderCursor _ _ => string
  | OpFindHoverOnTex _ _ => option TexMathEnv
  | OpFindHoverOnRef _ _ => option TexMathEnv
  | OpRenderSvgOnRef _ _ _ => string
  | OpFindMathEnvIncludingPosition _ _ => option TexMathEnv
  end.

Definition op_prog (o : Operation) : Prog (op_result o) :=
  match o with
  | OpFindProjectNewCommand ctoken => findProjectNewCommand ctoken
  | OpProvideHoverOnTex d tex newCommand => provideHoverOnTex d tex newCommand
  | OpProvideHoverOnRef d p refData token ctoken => provideHoverOnRef d p refData token ctoken
  | OpGenerateSVG tex newCommandsArg => generateSVG tex newCommandsArg
  | OpGetColor => getColor
  | OpRenderCursor d r => renderCursor d r
  | OpFindHoverOnTex d p => findHoverOnTex d p
  | OpFindHoverOnRef refData token => findHoverOnRef refData token
  | OpRenderSvgOnRef tex refData ctoken => renderSvgOnRef tex refData ctoken
  | OpFindMathEnvIncludingPosition d p => findMathEnvIncludingPosition d p
  end.

Definition is_getColor (o : Operation) : bool :=
  match o with
  | OpGetColor => true
  | _ => false
  end.

Definition is_provideHoverOnTex (o : Operation) : bool :=
  match o with
  | OpProvideHoverOnTex _ _ _ => true
  | _ => false
  end.

(** The operations whose whole body is in the source: the other two go
    on in [TextDocumentLike.load] and in the reference provider. *)
Definition on_source (o : Operation) : bool :=
  match o with
  | OpFindHoverOnRef _ _ | OpRenderSvgOnRef _ _ _ => false
  | _ => true
  end.

(** The operations that only consult their collaborators. *)
Definition consults_only (o : Operation) : bool :=
  match o with
  | OpGetColor | OpFindHoverOnRef _ _ => false
  | _ => true
  end.

(** A method suspended at an [await]. *)
Record Task := {
  task_result : Type;
  task_awaits : Type;
  task_call : Async task_awaits;
  task_resume : Exn + task_awaits → Prog task_result
}.

(** The event loop: the world and the suspended methods. *)
Record Loop := { loop_world : World; loop_tasks : list Task }.

Definition park {A : Type} (o : Outcome A) (ts : list Task) : list Task :=
  match o with
  | Pending c k => {| task_call := c; task_resume := k |} :: ts
  | _ => ts
  end.

(** A freshly constructed coordinator: the field holds its initialiser,
    nothing is suspended, no document has been projected. *)
Definition initial (l : Loop) : Prop :=
  w_color (loop_world l) = constructor_color ∧
  w_cache (loop_world l) = ∅ ∧
  loop_tasks l = [].

(** One turn: a caller invokes an operation, the host does something, or a
    promise settles and the suspended method goes on. *)
Inductive loop_step : Loop → Loop → Prop :=
| loop_invoke (o : Operation) (l : Loop) :
    loop_step l
      {| loop_world := (run_sync (op_prog o) (loop_world l)).1.2;
         loop_tasks := park (run_sync (op_prog o) (loop_world l)).2 (loop_tasks l) |}
| loop_host (h : HostEvent) (l : Loop) :
    loop_step l
      {| loop_world := (host_step h (loop_world l)).2; loop_tasks := loop_tasks l |}
| loop_settle (t : Task) (r : Exn + task_awaits t) (before after : list Task) (l : Loop) :
    loop_tasks l = before ++ t :: after →
    loop_step l
      {| loop_world := (run_sync (task_resume t r) (loop_world l)).1.2;
         loop_tasks := park (run_sync (task_resume t r) (loop_world l)).2 (before ++ after) |}.

Inductive reachable : Loop → Prop :=
| reachable_initial l : initial l → reachable l
| reachable_step l l' : reachable l → loop_step l l' → reachable l'.

End MathPreview.

(** ** Sample inputs *)

Module Sample.

Definition collaborators : Collaborators := {|
  mathjaxify := λ s env, "\begin{" +:+ env +:+ "}" +:+ s +:+ "\end{" +:+ env +:+ "}";
  stripTeX := λ s, s;
  addDummyCodeBlock := λ s, s;
  svgToDataUrl := λ xml, "data:image/svg+xml;utf8," +:+ xml;
  synctexLink := λ l f, "command:latex-workshop.synctexto?" +:+ f;
  cursorRenderer_renderCursor := λ d r c, "x{\color{" +:+ c +:+ "}|}";
  texMathEnvFinder_findHoverOnTex := λ _ _, None;
  texMathEnvFinder_findHoverOnRef := λ _ _ _ _, None;
  texMathEnvFinder_findMathEnvIncludingPosition := λ _ _, None;
  document_getWordRangeAtPosition := λ _ _ _, None
|}.

Definition origin : Position := {| line := 0; character := 0 |}.

Definition tex : TexMathEnv :=
  {| texString := "x"; range := {| range_start := origin; range_end := origin |};
     envname := "equation" |}.

Definition document : Document := TextDocument "main.tex" "\begin{equation}x\end{equation}".

Definition world : World :=
  {| w_color := "#000000"; w_theme := "light"; w_config := ∅; w_open := ∅;
     w_files := ∅; w_cache := ∅; w_next_id := 0 |}.

(** Reference hovers are on, numbering notes are off. *)
Definition world_numbers_off : World :=
  {| w_color := "#000000"; w_theme := "light";
     w_config := <["hover.ref.enabled" := JsBool true]>
                   (<["hover.ref.number.enabled" := JsBool false]> ∅);
     w_open := ∅; w_files := ∅; w_cache := ∅; w_next_id := 0 |}.

(** The file of the references below can be read and is not open. *)
Definition world_with_file : World :=
  {| w_color := "#000000"; w_theme := "light"; w_config := ∅; w_open := ∅;
     w_files := <["main.tex" := "\begin{equation}\label{eq:1}x\end{equation}"]> ∅;
     w_cache := ∅; w_next_id := 0 |}.

(** A reference that was numbered at the last compilation. *)
Definition numbered_ref : ReferenceEntry :=
  {| label := "eq:1"; documentation := "x"; file := "main.tex"; position := origin;
     prevIndex := Some {| refNumber := "1"; pageNumber := "1" |} |}.

(** A reference that has no number yet. *)
Definition unnumbered_ref : ReferenceEntry :=
  {| label := "eq:2"; documentation := "y"; file := "main.tex"; position := origin;
     prevIndex := None |}.

Definition ctoken : CancellationToken := {| isCancellationRequested := false |}.

(** An engine that rejects every request. *)
Definition rejecting : Settlement :=
  {| during := []; settle := λ _ _, inl (Error "TeX parse error") |}.

(** An engine that answers every request while the user switches to a dark
    theme. *)
Definition answering_while_theme_turns_dark : Settlement :=
  {| during := [ThemeChanged "dark"];
     settle := λ X c,
       match c in Async X return Exn + X with
       | Typeset _ _ => inr "<svg/>"
       | FindProjectNewCommand _ => inr "\newcommand{\R}{\mathbb{R}}"
       | ProvideHoverPreviewOnRef _ _ _ _ => inl (Error "unused")
       end |}.

(** Collaborators whose finder has a region for every reference. *)
Definition finding_collaborators : Collaborators := {|
  mathjaxify := mathjaxify collaborators;
  stripTeX := stripTeX collaborators;
  addDummyCodeBlock := addDummyCodeBlock collaborators;
  svgToDataUrl := svgToDataUrl collaborators;
  synctexLink := synctexLink collaborators;
  cursorRenderer_renderCursor := cursorRenderer_renderCursor collaborators;
  texMathEnvFinder_findHoverOnTex := λ _ _, Some tex;
  texMathEnvFinder_findHoverOnRef := λ _ _ _ _, Some tex;
  texMathEnvFinder_findMathEnvIncludingPosition := λ _ _, Some tex;
  document_getWordRangeAtPosition := λ _ _ _, None
|}.



(** The editor starts with a dark theme. *)
Definition world_started_dark : World :=
  {| w_color := "#000000"; w_theme := "dark"; w_config := ∅; w_open := ∅;
     w_files := ∅; w_cache := ∅; w_next_id := 0 |}.

Definition started_dark_loop : Loop :=
  {| loop_world := world_started_dark; loop_tasks := [] |}.

(** The hover a preview provider may answer with. *)
Definition preview_hover : Hover :=
  {| contents := [Plain "![equation](data:image/svg+xml;utf8,<svg/>)"];
     hover_range := None |}.

(** An engine, a scanner and a provider that answer every request; the
    host does nothing meanwhile. *)
Definition answering : Settlement :=
  {| during := [];
     settle := λ X c,
       match c in Async X return Exn + X with
       | Typeset _ _ => inr "<svg/>"
       | FindProjectNewCommand _ => inr "\newcommand{\R}{\mathbb{R}}"
       | ProvideHoverPreviewOnRef _ _ _ _ => inr preview_hover
       end |}.

(** A coordinator right after construction, and the same after the user
    has switched to a dark theme. *)
Definition fresh_loop : Loop := {| loop_world := world; loop_tasks := [] |}.

Definition dark_loop : Loop :=
  {| loop_world := (host_step collaborators (ThemeChanged "dark") world).2;
     loop_tasks := [] |}.

End Sample.

(** ** Properties *)

Section Properties.

Variable C : Collaborators.

(** *** What the host leaves in a trace *)

Lemma fire_made_by_host w :
  Forall (λ e, made_by_host e = true) (fire_onDidChangeConfiguration C w).1.
Proof.
  unfold fire_onDidChangeConfiguration, onDidChangeConfiguration_listener. cbn.
  destruct (String.eqb (w_theme w) "light"); cbn; repeat constructor.
Qed.

Lemma host_step_made_by_host h w :
  Forall (λ e, made_by_host e = true) (host_step C h w).1.
Proof.
  destruct h; cbn [host_step fst snd];
    (apply Forall_cons; split; [reflexivity|]);
    first [apply fire_made_by_host | apply Forall_nil; exact I | constructor].
Qed.

Lemma host_steps_made_by_host hs w :
  Forall (λ e, made_by_host e = true) (host_steps C hs w).1.
Proof.
  revert w. induction hs as [|h hs IH]; intros w; cbn [host_steps fst snd].
  - constructor.
  - apply Forall_app. split; [apply host_step_made_by_host | apply IH].
Qed.

Lemma omap_quiet {A B : Type} (f : A → option B) (l : list A) :
  Forall (λ x, f x = None) l → omap f l = [].
Proof.
  induction 1 as [|x l Hx _ IH]; cbn; [reflexivity|]. rewrite Hx. exact IH.
Qed.

Lemma host_steps_quiet {B : Type} (f : Event → option B) hs w :
  (∀ e, made_by_host e = true → f e = None) →
  omap f (host_steps C hs w).1 = [].
Proof.
  intros Hf. apply omap_quiet.
  eapply Forall_impl; [apply host_steps_made_by_host | exact Hf].
Qed.

Lemma typeset_submitted_quiet e : made_by_host e = true → typeset_submitted e = None.
Proof. destruct e as [[]| |[]]; cbn; try discriminate; reflexivity. Qed.

Lemma typeset_settled_quiet e : made_by_host e = true → typeset_settled e = None.
Proof. destruct e as [[]| |[]]; cbn; try discriminate; reflexivity. Qed.

Lemma scan_started_quiet e : made_by_host e = true → scan_started e = None.
Proof. destruct e as [[]| |[]]; cbn; try discriminate; reflexivity. Qed.

Lemma cursor_rendered_quiet e : made_by_host e = true → cursor_rendered e = None.
Proof.
  destruct e as [[? c ?| |]| |[? c ?| |]]; cbn; try discriminate; try reflexivity.
  destruct c; cbn; try discriminate; reflexivity.
Qed.

Lemma color_written_by_op_quiet e : made_by_host e = true → color_written_by_op e = None.
Proof. destruct e as [[]| |[]]; cbn; try discriminate; reflexivity. Qed.

Lemma finder_document_quiet e : made_by_host e = true → finder_document e = None.
Proof. destruct e as [[]| |[]]; cbn; try discriminate; reflexivity. Qed.

(** Reading the trace of a run: split at the host's part, which adds
    nothing to any of the observations above. *)
Ltac read_trace :=
  unfold trace_of, world_of, outcome_of, emit,
    typeset_submissions, typeset_settlements, scans, cursor_calls,
    color_writes_by_op, finder_documents;
  cbn;
  repeat (rewrite omap_app; cbn);
  rewrite ?(host_steps_quiet _ _ _ typeset_submitted_quiet),
    ?(host_steps_quiet _ _ _ typeset_settled_quiet),
    ?(host_steps_quiet _ _ _ scan_started_quiet),
    ?(host_steps_quiet _ _ _ cursor_rendered_quiet),
    ?(host_steps_quiet _ _ _ color_written_by_op_quiet),
    ?(host_steps_quiet _ _ _ finder_document_quiet);
  cbn.

(** Follows a run through the settlements it meets. *)
Ltac by_settlements :=
  try reflexivity; read_trace;
  repeat (match goal with
          | |- context [settle ?s ?X ?c] => destruct (settle s X c)
          end; read_trace);
  reflexivity.

(** With nothing scheduled, a call is one turn of the event loop. *)
Lemma exec_unscheduled {A : Type} (p : Prog A) w :
  exec C p [] w
  = (Op <$> (run_sync C p w).1.1, (run_sync C p w).1.2, (run_sync C p w).2).
Proof.
  revert w. induction p as [a|e|X c k IH|X c k _]; intros w; cbn [exec run_sync].
  - reflexivity.
  - reflexivity.
  - rewrite IH. reflexivity.
  - reflexivity.
Qed.

(** *** One call at a time *)

(** C3: after [getColor] the field holds the dark foreground '#000000'
    when the theme lightness is 'light' and the light foreground '#ffffff'
    for every other lightness; nothing else is ever assigned by it. *)
Theorem getColor_by_lightness sched w :
  exec C getColor sched w
  = ([Op (Called GetCurrentThemeLightness (w_theme w));
      Op (Called (WriteColor (if String.eqb (w_theme w) "light"
                              then "#000000" else "#ffffff")) tt)],
     set_color (if String.eqb (w_theme w) "light" then "#000000" else "#ffffff") w,
     Returned tt).
Proof.
  cbn. destruct (String.eqb (w_theme w) "light"); reflexivity.
Qed.

(** C2: when the engine rejects the request of [provideHoverOnTex] with
    [e], the call logs the rejection and the message naming the source and
    then throws the very same [e]: the hover request fails. *)
Theorem provideHoverOnTex_rethrows document tex newCommand s sched w e :
  let typesetArg :=
    newCommand +:+
    stripTeX C (mathjaxify C
      (cursorRenderer_renderCursor C document (range tex) (w_color w)) (envname tex)) in
  let request :=
    Typeset typesetArg
      {| scale := config_get (w_config w) "hover.preview.scale"; color := w_color w |} in
  settle s _ request = inl e →
  exec C (provideHoverOnTex C document tex newCommand) (s :: sched) w
  = ([Op (Called (GetConfiguration "latex-workshop") (w_config w));
      Op (Called ReadColor (w_color w));
      Op (Called (RenderCursor document (range tex) (w_color w))
            (cursorRenderer_renderCursor C document (range tex) (w_color w)));
      Op (Called ReadColor (w_color w));
      Op (Submitted request)]
     ++ (host_steps C (during s) w).1
     ++ [Op (Settled request (inl e));
         Op (Called (LogOnRejected e) tt);
         Op (Called (AddLogMessage ("Error when MathJax is rendering " +:+ typesetArg)) tt)],
     (host_steps C (during s) w).2,
     Thrown e).
Proof.
  intros typesetArg request Hrej.
  cbn. fold typesetArg. fold request. rewrite Hrej. cbn.
  unfold emit. cbn. rewrite <- app_assoc. reflexivity.
Qed.

(** C4: the color of a typesetting request of [provideHoverOnTex] is the
    field's value when the request is submitted.  It is so while the request
    is queued, and it is still so when the engine answers, whatever the host
    did in between (a change of theme included); the world then holds the
    color the host's events led to, and a request submitted afterwards
    carries that one. *)
Theorem provideHoverOnTex_color_at_submission d1 t1 n1 d2 t2 n2 s sched1 sched2 w :
  let queued := exec C (provideHoverOnTex C d1 t1 n1) [] w in
  let first := exec C (provideHoverOnTex C d1 t1 n1) (s :: sched1) w in
  let changed := (host_steps C (during s) w).2 in
  let second := exec C (provideHoverOnTex C d2 t2 n2) sched2 (world_of first) in
  (color ∘ snd) <$> typeset_submissions (trace_of queued) = [w_color w] ∧
  (color ∘ snd) <$> typeset_submissions (trace_of first) = [w_color w] ∧
  (color ∘ snd) <$> typeset_settlements (trace_of first) = [w_color w] ∧
  world_of first = changed ∧
  (color ∘ snd) <$> typeset_submissions (trace_of second) = [w_color changed].
Proof.
  cbn zeta.
  assert (Hw : world_of (exec C (provideHoverOnTex C d1 t1 n1) (s :: sched1) w)
               = (host_steps C (during s) w).2).
  { unfold world_of. cbn. destruct (settle s string _); reflexivity. }
  split_and!.
  - reflexivity.
  - read_trace. destruct (settle s string _); read_trace; reflexivity.
  - read_trace. destruct (settle s string _); read_trace; reflexivity.
  - exact Hw.
  - rewrite Hw. generalize ((host_steps C (during s) w).2). intros w'.
    destruct sched2 as [|s2 sched2]; [reflexivity|].
    read_trace. destruct (settle s2 string _); read_trace; reflexivity.
Qed.

(** C5: with a macro override [given], [generateSVG] starts no project
    scan, submits exactly [given] followed by the stripped source, and
    resolves to a result whose [newCommands] is [given] (or throws what the
    engine rejected the request with); without an override it starts with
    the project scan. *)
Theorem generateSVG_macro_override tex given s sched w sched0 w0 :
  let source := stripTeX C (mathjaxify C (texString tex) (envname tex)) in
  let opts :=
    {| scale := config_get (w_config w) "hover.preview.scale"; color := w_color w |} in
  let r := exec C (generateSVG C tex (Some given)) (s :: sched) w in
  scans (trace_of r) = [] ∧
  typeset_submissions (trace_of r) = [(given +:+ source, opts)] ∧
  outcome_of r
  = match settle s _ (Typeset (given +:+ source) opts) with
    | inl e => Thrown e
    | inr xml => Returned {| svgDataUrl := svgToDataUrl C xml; newCommands := given |}
    end ∧
  scans (trace_of (exec C (generateSVG C tex (Some given)) [] w)) = [] ∧
  typeset_submissions (trace_of (exec C (generateSVG C tex (Some given)) [] w))
  = [(given +:+ source, opts)] ∧
  scans (trace_of (exec C (generateSVG C tex None) sched0 w0)) = [None].
Proof.
  cbn zeta. split_and!.
  - read_trace. destruct (settle s string _); read_trace; reflexivity.
  - read_trace. destruct (settle s string _); read_trace; reflexivity.
  - unfold outcome_of. cbn. destruct (settle s string _); reflexivity.
  - reflexivity.
  - reflexivity.
  - destruct sched0 as [|s0 sched0]; [reflexivity|].
    read_trace. destruct (settle s0 string _) as [e|nc]; read_trace; [reflexivity|].
    destruct sched0 as [|s1 sched0]; [reflexivity|].
    read_trace. destruct (settle s1 string _); read_trace; reflexivity.
Qed.

(** C6: neither [generateSVG] nor [renderSvgOnRef] invokes the cursor
    renderer, and what they submit is the macros followed by the source
    built from [tex.texString]; [provideHoverOnTex] invokes the cursor
    renderer once, on the region's range, and submits the source built from
    its answer. *)
Theorem reference_path_skips_cursor tex refData ctoken newCommandsArg document
    newCommand sched w :
  let source := stripTeX C (mathjaxify C (texString tex) (envname tex)) in
  let scanned (ct : option CancellationToken) : list string :=
    match sched with
    | [] => []
    | s :: _ =>
        match settle s _ (FindProjectNewCommand ct) with
        | inl _ => []
        | inr nc => [nc +:+ source]
        end
    end in
  let g := trace_of (exec C (generateSVG C tex newCommandsArg) sched w) in
  let r := trace_of (exec C (renderSvgOnRef C tex refData ctoken) sched w) in
  let h := trace_of (exec C (provideHoverOnTex C document tex newCommand) sched w) in
  cursor_calls g = [] ∧
  fst <$> typeset_submissions g
  = match newCommandsArg with
    | Some given => [given +:+ source]
    | None => scanned None
    end ∧
  cursor_calls r = [] ∧
  fst <$> typeset_submissions r = scanned (Some ctoken) ∧
  cursor_calls h = [(document, range tex, w_color w)] ∧
  fst <$> typeset_submissions h
  = [newCommand +:+
     stripTeX C (mathjaxify C
       (cursorRenderer_renderCursor C document (range tex) (w_color w)) (envname tex))].
Proof.
  cbn zeta. split_and!.
  - destruct newCommandsArg as [given|], sched as [|s [|s' sched]]; by_settlements.
  - destruct newCommandsArg as [given|], sched as [|s [|s' sched]]; by_settlements.
  - destruct sched as [|s [|s' sched]]; by_settlements.
  - destruct sched as [|s [|s' sched]]; by_settlements.
  - destruct sched as [|s sched]; by_settlements.
  - destruct sched as [|s sched]; by_settlements.
Qed.


(** When the finder has a region and reference hovers are on, the hover
    is the one the preview provider resolves to. *)
Lemma provideHoverOnRef_preview document p refData token ctoken tex s1 s2 sched w nc :
  truthy (config_get (w_config w) "hover.ref.enabled") = true →
  texMathEnvFinder_findHoverOnRef C document p refData token = Some tex →
  settle s1 _ (FindProjectNewCommand (Some ctoken)) = inr nc →
  outcome_of (exec C (provideHoverOnRef C document p refData token ctoken)
                (s1 :: s2 :: sched) w)
  = match settle s2 _ (ProvideHoverPreviewOnRef tex nc refData
                         (w_color (host_steps C (during s1) w).2)) with
    | inl e => Thrown e
    | inr h => Returned h
    end.
Proof.
  intros Hon Hsome Hnc. unfold outcome_of, provideHoverOnRef. cbn.
  rewrite Hon. cbn. rewrite Hsome. cbn. rewrite Hnc. cbn.
  destruct (settle s2 Hover _); reflexivity.
Qed.

(** The fenced documentation and the link are never taken for a
    numbering note. *)
Lemma note_among_contents doc (link : MarkdownString) (notes : list MarkedString) :
  (∃ n, Plain ("numbered " +:+ n +:+ " at last compilation")
        ∈ Plain ("```latex" +:+ nl +:+ doc +:+ nl +:+ "```" +:+ nl)
          :: notes ++ [Markdown link]) ↔
  (∃ n, Plain ("numbered " +:+ n +:+ " at last compilation") ∈ notes).
Proof.
  split; intros [n Hin]; exists n.
  - apply elem_of_cons in Hin as [Hin|Hin]; [cbn in Hin; discriminate|].
    apply elem_of_app in Hin as [Hin|Hin]; [exact Hin|].
    apply list_elem_of_singleton in Hin. discriminate.
  - apply elem_of_cons. right. apply elem_of_app. left. exact Hin.
Qed.

(** C7 (amended): when no preview is rendered, the hover carries the note
    "numbered N at last compilation" exactly when the reference has a
    previous compile number and the setting hover.ref.number.enabled is on,
    and N is that number; [refNumberMessage] is undefined exactly when the
    previous compile number is absent, and then the hover has no note. *)
Theorem provideHoverOnRef_numbering_note document p refData token ctoken sched w :
  (truthy (config_get (w_config w) "hover.ref.enabled") = true →
   texMathEnvFinder_findHoverOnRef C document p refData token = None) →
  ∃ h,
    outcome_of (exec C (provideHoverOnRef C document p refData token ctoken) sched w)
    = Returned h ∧
    ((∃ n, Plain ("numbered " +:+ n +:+ " at last compilation") ∈ contents h) ↔
     (is_Some (prevIndex refData) ∧
      truthy (config_get (w_config w) "hover.ref.number.enabled") = true)) ∧
    (∀ n, prevIndex refData = Some n →
          truthy (config_get (w_config w) "hover.ref.number.enabled") = true →
          Plain ("numbered " +:+ refNumber n +:+ " at last compilation") ∈ contents h) ∧
    (refNumberMessage refData = None ↔ prevIndex refData = None) ∧
    (∀ n, prevIndex refData = Some n →
          refNumberMessage refData
          = Some ("numbered " +:+ refNumber n +:+ " at last compilation")).
Proof.
  intros Hnone.
  set (note :=
    match prevIndex refData with
    | Some n =>
        if truthy (config_get (w_config w) "hover.ref.number.enabled")
        then [Plain ("numbered " +:+ refNumber n +:+ " at last compilation")]
        else []
    | None => []
    end).
  exists {| contents :=
              Plain ("```latex" +:+ nl +:+ documentation refData +:+ nl +:+ "```" +:+ nl)
              :: note
              ++ [Markdown
                    {| value := "[View on pdf](" +:+
                                synctexLink C (line (position refData)) (file refData)
                                +:+ ")";
                       isTrusted := true |}];
            hover_range := document_getWordRangeAtPosition C document p "\{.*?\}" |}.
  split_and!.
  - unfold outcome_of, provideHoverOnRef, provideHoverOnRef_text, refNumberMessage, note.
    cbn.
    destruct (truthy (config_get (w_config w) "hover.ref.enabled")); cbn;
      rewrite ?Hnone by reflexivity; cbn;
      destruct (prevIndex refData) as [n|]; cbn;
      try destruct (truthy (config_get (w_config w) "hover.ref.number.enabled"));
      reflexivity.
  - cbn [contents]. rewrite note_among_contents. unfold note.
    destruct (prevIndex refData) as [n|];
      [destruct (truthy (config_get (w_config w) "hover.ref.number.enabled"))|].
    + split; [intros _; split; [eexists|]; reflexivity|].
      intros _. exists (refNumber n). apply list_elem_of_singleton. reflexivity.
    + split; [intros [n0 Hin]; apply elem_of_nil in Hin; contradiction|].
      intros [_ Hon]. discriminate.
    + split; [intros [n0 Hin]; apply elem_of_nil in Hin; contradiction|].
      intros [[n0 Hn0] _]. discriminate.
  - intros n Hn Hon. cbn [contents]. unfold note. rewrite Hn, Hon.
    apply elem_of_cons. right. apply elem_of_cons. left. reflexivity.
  - unfold refNumberMessage. destruct (prevIndex refData); split; congruence.
  - intros n Hn. unfold refNumberMessage. rewrite Hn. reflexivity.
Qed.

(** *** The color field *)

Lemma ColorWrites_bind (P : string → Prop) {A B : Type} (p : Prog A) (f : A → Prog B) :
  ColorWrites P p → (∀ a, ColorWrites P (f a)) → ColorWrites P (p ≫= f).
Proof.
  intros Hp Hf. unfold mbind, prog_bind.
  induction Hp as [a|e|X c k Hc _ IH|X c k _ IH]; cbn.
  - apply Hf.
  - constructor.
  - constructor; [exact Hc | exact IH].
  - constructor. exact IH.
Qed.

Lemma ColorWrites_try_catch (P : string → Prop) {A : Type} (p : Prog A) (h : Exn → Prog A) :
  ColorWrites P p → (∀ e, ColorWrites P (h e)) → ColorWrites P (try_catch p h).
Proof.
  intros Hp Hh.
  induction Hp as [a|e|X c k Hc _ IH|X c k _ IH]; cbn.
  - constructor.
  - apply Hh.
  - constructor; [exact Hc | exact IH].
  - constructor. exact IH.
Qed.

Lemma ColorWrites_call (P : string → Prop) {X : Type} (c : Sync X) :
  (∀ col, written c = Some col → P col) → ColorWrites P (call c).
Proof. intros Hc. constructor; [exact Hc | intros x; constructor]. Qed.

Lemma ColorWrites_await (P : string → Prop) {X : Type} (c : Async X) :
  ColorWrites P (await c).
Proof. constructor. intros [e|x]; constructor. Qed.

Lemma ColorWrites_mono (P Q : string → Prop) {A : Type} (p : Prog A) :
  (∀ col, P col → Q col) → ColorWrites P p → ColorWrites Q p.
Proof.
  intros HPQ Hp.
  induction Hp as [a|e|X c k Hc _ IH|X c k _ IH]; constructor; auto.
Qed.

(** Walks through a method's body: every call met is checked not to be an
    assignment to the field, every branch is followed. *)
Ltac walk :=
  repeat first
    [ apply cw_ret
    | apply cw_throw
    | apply ColorWrites_await
    | apply ColorWrites_call; intros ? [=]
    | apply ColorWrites_try_catch; [|intros ?]
    | apply ColorWrites_bind; [|intros ?]
    | match goal with
      | |- ColorWrites _ (match ?x with _ => _ end) => destruct x
      end ].

Lemma provideHoverOnTex_no_write d tex nc : NoColorWrite (provideHoverOnTex C d tex nc).
Proof. unfold NoColorWrite, provideHoverOnTex. walk. Qed.

Lemma provideHoverOnRef_no_write d p refData token ctoken :
  NoColorWrite (provideHoverOnRef C d p refData token ctoken).
Proof.
  unfold NoColorWrite, provideHoverOnRef, provideHoverOnRef_text, findProjectNewCommand.
  walk.
Qed.

Lemma generateSVG_no_write tex arg : NoColorWrite (generateSVG C tex arg).
Proof. unfold NoColorWrite, generateSVG. walk. Qed.

Lemma findHoverOnRef_no_write refData token : NoColorWrite (findHoverOnRef refData token).
Proof. unfold NoColorWrite, findHoverOnRef, TextDocumentLike_load. walk. Qed.

Lemma renderSvgOnRef_no_write tex refData ctoken :
  NoColorWrite (renderSvgOnRef C tex refData ctoken).
Proof.
  unfold NoColorWrite, renderSvgOnRef, hoverPreviewOnRefProvider_renderSvgOnRef,
    findProjectNewCommand.
  walk.
Qed.

Lemma getColor_writes_two_valued : ColorWrites two_valued getColor.
Proof.
  unfold getColor. apply ColorWrites_bind; [walk|]. intros lightness.
  destruct (String.eqb lightness "light"); apply ColorWrites_call;
    intros col [= <-]; [left | right]; reflexivity.
Qed.

Lemma op_no_write o : is_getColor o = false → NoColorWrite (op_prog C o).
Proof.
  destruct o; cbn [is_getColor op_prog]; intros Hop; try discriminate.
  - apply ColorWrites_await.
  - apply provideHoverOnTex_no_write.
  - apply provideHoverOnRef_no_write.
  - apply generateSVG_no_write.
  - unfold NoColorWrite, renderCursor. walk.
  - unfold NoColorWrite, findHoverOnTex. walk.
  - apply findHoverOnRef_no_write.
  - apply renderSvgOnRef_no_write.
  - unfold NoColorWrite, findMathEnvIncludingPosition. walk.
Qed.

Lemma op_writes_two_valued o : ColorWrites two_valued (op_prog C o).
Proof.
  destruct (is_getColor o) eqn:Hop.
  - destruct o; try discriminate. apply getColor_writes_two_valued.
  - eapply ColorWrites_mono; [|apply op_no_write; exact Hop]. intros col [].
Qed.

(** The field along a run. *)

Lemma color_after_app cur tr1 tr2 :
  color_after cur (tr1 ++ tr2) = color_after (color_after cur tr1) tr2.
Proof.
  revert cur. induction tr1 as [|e tr1 IH]; intros cur; cbn; [reflexivity|].
  destruct (act_of e) as [[X c x|X c|X c r]|]; try apply IH.
  destruct c; apply IH.
Qed.

Lemma reads_current_app cur tr1 tr2 :
  reads_current cur tr1 → reads_current (color_after cur tr1) tr2 →
  reads_current cur (tr1 ++ tr2).
Proof.
  revert cur. induction tr1 as [|e tr1 IH]; intros cur; cbn; [auto|].
  destruct (act_of e) as [[X c x|X c|X c r]|]; try apply IH.
  destruct c; try apply IH.
  intros [Hx H1] H2. split; [exact Hx | apply IH; assumption].
Qed.

Lemma handle_color_kept {X : Type} (c : Sync X) w :
  written c = None → w_color (handle C c w).2 = w_color w.
Proof. destruct c; cbn; intros Hc; try reflexivity; discriminate. Qed.

Lemma handle_color_written {X : Type} (c : Sync X) w col :
  written c = Some col → w_color (handle C c w).2 = col.
Proof. destruct c; cbn; intros [= <-]. reflexivity. Qed.

Lemma handle_tracks_color {X : Type} (c : Sync X) w (by_listener : bool) :
  let e := (if by_listener then Listener else Op) (Called c (handle C c w).1) in
  reads_current (w_color w) [e] ∧
  color_after (w_color w) [e] = w_color (handle C c w).2.
Proof.
  destruct by_listener, c; cbn; auto.
Qed.

Lemma fire_tracks_color w :
  reads_current (w_color w) (fire_onDidChangeConfiguration C w).1 ∧
  color_after (w_color w) (fire_onDidChangeConfiguration C w).1
  = w_color (fire_onDidChangeConfiguration C w).2.
Proof.
  unfold fire_onDidChangeConfiguration, onDidChangeConfiguration_listener. cbn.
  destruct (String.eqb (w_theme w) "light"); cbn; auto.
Qed.

Lemma host_step_tracks_color h w :
  reads_current (w_color w) (host_step C h w).1 ∧
  color_after (w_color w) (host_step C h w).1 = w_color (host_step C h w).2.
Proof.
  destruct h; cbn [host_step fst snd reads_current color_after act_of]; auto.
  - apply (fire_tracks_color (set_theme lightness w)).
  - apply (fire_tracks_color (set_config (<[key:=v]> (w_config w)) w)).
Qed.

Lemma host_steps_tracks_color hs w :
  reads_current (w_color w) (host_steps C hs w).1 ∧
  color_after (w_color w) (host_steps C hs w).1 = w_color (host_steps C hs w).2.
Proof.
  revert w. induction hs as [|h hs IH]; intros w; cbn [host_steps fst snd].
  - cbn. auto.
  - destruct (host_step_tracks_color h w) as [Hr Hc].
    destruct (IH (host_step C h w).2) as [Hr' Hc'].
    split.
    + apply reads_current_app; [exact Hr | rewrite Hc; exact Hr'].
    + rewrite color_after_app, Hc. exact Hc'.
Qed.

(** Every read of the field, by whichever program, returns the value of
    the latest assignment, and the trace accounts for the field's value. *)
Lemma exec_tracks_color {A : Type} (p : Prog A) sched w :
  reads_current (w_color w) (trace_of (exec C p sched w)) ∧
  color_after (w_color w) (trace_of (exec C p sched w))
  = w_color (world_of (exec C p sched w)).
Proof.
  revert sched w. unfold trace_of, world_of.
  induction p as [a|e|X c k IH|X c k IH]; intros sched w; cbn [exec emit fst snd].
  - cbn. auto.
  - cbn. auto.
  - destruct (handle_tracks_color c w false) as [Hr Hc]. cbn zeta in Hr, Hc.
    destruct (IH (handle C c w).1 sched (handle C c w).2) as [Hr' Hc'].
    split.
    + apply reads_current_app; [exact Hr | rewrite Hc; exact Hr'].
    + rewrite color_after_app, Hc. exact Hc'.
  - destruct sched as [|s sched]; cbn [emit fst snd]; [cbn; auto|].
    destruct (host_steps_tracks_color (during s) w) as [Hr Hc].
    destruct (IH (settle s X c) sched (host_steps C (during s) w).2) as [Hr' Hc'].
    assert (Hmid : color_after (w_color w)
                     (Op (Submitted c) :: (host_steps C (during s) w).1
                      ++ [Op (Settled c (settle s X c))])
                   = w_color (host_steps C (during s) w).2).
    { change (Op (Submitted c) :: ?l) with ([Op (Submitted c)] ++ l).
      rewrite !color_after_app. cbn. exact Hc. }
    split.
    + apply reads_current_app; [|rewrite Hmid; exact Hr'].
      change (Op (Submitted c) :: ?l) with ([Op (Submitted c)] ++ l).
      apply reads_current_app; [exact I|]. cbn [color_after act_of].
      apply reads_current_app; [exact Hr | exact I].
    + rewrite color_after_app, Hmid. exact Hc'.
Qed.

(** A program without assignments leaves none in its trace, and with a
    host that stays silent the field is what it was. *)
Lemma exec_no_op_writes {A : Type} (p : Prog A) sched w :
  NoColorWrite p → color_writes_by_op (trace_of (exec C p sched w)) = [].
Proof.
  intros Hp. revert sched w. unfold trace_of, color_writes_by_op.
  induction Hp as [a|e|X c k Hc _ IH|X c k _ IH]; intros sched w;
    cbn [exec emit fst snd].
  - reflexivity.
  - reflexivity.
  - rewrite omap_app, IH. cbn. destruct c; try reflexivity.
    exfalso. exact (Hc _ eq_refl).
  - destruct sched as [|s sched]; cbn [emit fst snd]; [reflexivity|].
    rewrite omap_app, IH. cbn. rewrite omap_app.
    rewrite (host_steps_quiet _ _ _ color_written_by_op_quiet). reflexivity.
Qed.

Lemma exec_frame {A : Type} (p : Prog A) sched w :
  NoColorWrite p → Forall (λ s, during s = []) sched →
  w_color (world_of (exec C p sched w)) = w_color w.
Proof.
  intros Hp. revert sched w. unfold world_of.
  induction Hp as [a|e|X c k Hc _ IH|X c k _ IH]; intros sched w Hquiet;
    cbn [exec emit fst snd].
  - reflexivity.
  - reflexivity.
  - rewrite IH by exact Hquiet. apply handle_color_kept.
    destruct (written c) as [col|]; [destruct (Hc col eq_refl) | reflexivity].
  - destruct sched as [|s sched]; cbn [emit fst snd]; [reflexivity|].
    inversion Hquiet as [|? ? Hs Hrest]; subst.
    rewrite IH by exact Hrest. rewrite Hs. reflexivity.
Qed.

(** C9: an operation other than [getColor], the listener the constructor
    registers, never assigns the field: its body has no assignment, its
    trace has none, and if the host stays silent while it is suspended the
    field is afterwards what it was before.  Every read of the field
    returns the value of the latest assignment. *)
Theorem color_written_only_by_listener o sched w :
  is_getColor o = false →
  onDidChangeConfiguration_listener = getColor ∧
  NoColorWrite (op_prog C o) ∧
  color_writes_by_op (trace_of (exec C (op_prog C o) sched w)) = [] ∧
  (Forall (λ s, during s = []) sched →
   w_color (world_of (exec C (op_prog C o) sched w)) = w_color w) ∧
  reads_current (w_color w) (trace_of (exec C (op_prog C o) sched w)) ∧
  color_after (w_color w) (trace_of (exec C (op_prog C o) sched w))
  = w_color (world_of (exec C (op_prog C o) sched w)).
Proof.
  intros Hop. pose proof (op_no_write o Hop) as Hno.
  split_and!.
  - reflexivity.
  - exact Hno.
  - apply exec_no_op_writes. exact Hno.
  - apply exec_frame. exact Hno.
  - apply exec_tracks_color.
  - apply exec_tracks_color.
Qed.

(** *** The two-valued invariant *)

Lemma handle_two_valued {X : Type} (c : Sync X) w :
  (∀ col, written c = Some col → two_valued col) →
  two_valued (w_color w) → two_valued (w_color (handle C c w).2).
Proof.
  intros Hc Hw. destruct (written c) as [col|] eqn:Hwr.
  - rewrite (handle_color_written c w col Hwr). apply Hc. reflexivity.
  - rewrite (handle_color_kept c w Hwr). exact Hw.
Qed.

Lemma run_sync_two_valued {A : Type} (p : Prog A) w :
  ColorWrites two_valued p → two_valued (w_color w) →
  two_valued (w_color (run_sync C p w).1.2) ∧
  Forall (λ t, ∀ r, ColorWrites two_valued (task_resume t r))
    (park (run_sync C p w).2 []).
Proof.
  intros Hp. revert w.
  induction Hp as [a|e|X c k Hc _ IH|X c k Hk _]; intros w Hw;
    cbn [run_sync emit fst snd park].
  - split; [exact Hw | constructor].
  - split; [exact Hw | constructor].
  - apply IH. apply handle_two_valued; assumption.
  - split; [exact Hw|]. constructor; [exact Hk | constructor].
Qed.

Lemma park_app {A : Type} (o : Outcome A) ts : park o ts = park o [] ++ ts.
Proof. destruct o; reflexivity. Qed.

Lemma fire_two_valued w : two_valued (w_color (fire_onDidChangeConfiguration C w).2).
Proof.
  unfold fire_onDidChangeConfiguration, onDidChangeConfiguration_listener. cbn.
  destruct (String.eqb (w_theme w) "light"); [left | right]; reflexivity.
Qed.

Lemma host_step_two_valued h w :
  two_valued (w_color w) → two_valued (w_color (host_step C h w).2).
Proof.
  intros Hw. destruct h; cbn [host_step snd]; try exact Hw; apply fire_two_valued.
Qed.

Lemma host_steps_two_valued hs w :
  two_valued (w_color w) → two_valued (w_color (host_steps C hs w).2).
Proof.
  revert w. induction hs as [|h hs IH]; intros w Hw; cbn [host_steps snd].
  - exact Hw.
  - apply IH, host_step_two_valued, Hw.
Qed.

Lemma exec_two_valued {A : Type} (p : Prog A) sched w :
  ColorWrites two_valued p → two_valued (w_color w) →
  two_valued (w_color (world_of (exec C p sched w))).
Proof.
  intros Hp. revert sched w. unfold world_of.
  induction Hp as [a|e|X c k Hc _ IH|X c k _ IH]; intros sched w Hw;
    cbn [exec emit fst snd].
  - exact Hw.
  - exact Hw.
  - apply IH. apply handle_two_valued; assumption.
  - destruct sched as [|s sched]; cbn [emit fst snd]; [exact Hw|].
    apply IH. apply host_steps_two_valued, Hw.
Qed.

(** What holds of the event loop at every turn: the field is two-valued
    and so is whatever a suspended method may still assign. *)
Lemma loop_invariant l :
  reachable C l →
  two_valued (w_color (loop_world l)) ∧
  Forall (λ t, ∀ r, ColorWrites two_valued (task_resume t r)) (loop_tasks l).
Proof.
  induction 1 as [l (Hcolor & _ & Htasks)|l l' _ [Hw Hts] Hstep].
  - split; [left; exact Hcolor | rewrite Htasks; constructor].
  - destruct Hstep as [o l|h l|t r before after l Hsplit]; cbn [loop_world loop_tasks].
    + destruct (run_sync_two_valued (op_prog C o) (loop_world l)
                  (op_writes_two_valued o) Hw) as [Hw' Hp].
      split; [exact Hw'|]. rewrite park_app. apply Forall_app. split; assumption.
    + split; [apply host_step_two_valued; exact Hw | exact Hts].
    + rewrite Hsplit in Hts. apply Forall_app in Hts as [Hb Hta].
      apply Forall_cons in Hta as [Ht Ha].
      destruct (run_sync_two_valued (task_resume t r) (loop_world l) (Ht r) Hw)
        as [Hw' Hp].
      split; [exact Hw'|]. rewrite park_app.
      apply Forall_app. split; [exact Hp|]. apply Forall_app. split; assumption.
Qed.

(** C10: in every state the event loop can reach (operations invoked,
    suspended and resumed in any order, host events in between) the field
    is '#000000' or '#ffffff'; in the initial state it is '#000000'; and
    from such a state every operation, run under any schedule, ends in a
    state where the field is again one of the two. *)
Theorem color_two_valued_invariant l :
  reachable C l →
  two_valued (w_color (loop_world l)) ∧
  (initial l → w_color (loop_world l) = "#000000") ∧
  (∀ o sched,
     two_valued (w_color (world_of (exec C (op_prog C o) sched (loop_world l))))) ∧
  (∀ h, two_valued (w_color (host_step C h (loop_world l)).2)).
Proof.
  intros Hreach. destruct (loop_invariant l Hreach) as [Hw _].
  split_and!.
  - exact Hw.
  - intros (Hcolor & _). exact Hcolor.
  - intros o sched. apply exec_two_valued; [apply op_writes_two_valued | exact Hw].
  - intros h. apply host_step_two_valued. exact Hw.
Qed.

(** *** The document cache *)

Lemma file_loaded_quiet e : made_by_host e = true → file_loaded e = None.
Proof.
  destruct e as [[? c ?| |]| |[? c ?| |]]; cbn; try discriminate; reflexivity.
Qed.

Lemma host_step_cache h w : w_cache (host_step C h w).2 = w_cache w.
Proof.
  destruct h; cbn; try reflexivity.
  - destruct (String.eqb lightness "light"); reflexivity.
  - destruct (String.eqb (w_theme w) "light"); reflexivity.
Qed.

Lemma host_steps_cache hs w : w_cache (host_steps C hs w).2 = w_cache w.
Proof.
  revert w. induction hs as [|h hs IH]; intros w; cbn [host_steps snd]; [reflexivity|].
  rewrite IH. apply host_step_cache.
Qed.

(** What one call of [findHoverOnRef] does, by the state of the host and
    of the cache. *)
Lemma findHoverOnRef_run refData token sched w :
  let path := file refData in
  let r := exec C (findHoverOnRef refData token) sched w in
  match w_open w !! path, w_cache w !! path, w_files w !! path with
  | Some d, _, _ | None, Some d, _ =>
      file_loads (trace_of r) = [] ∧ finder_documents (trace_of r) = [d] ∧
      world_of r = w
  | None, None, Some text =>
      file_loads (trace_of r) = [path] ∧
      finder_documents (trace_of r) = [TextDocumentLike (w_next_id w) text] ∧
      w_cache (world_of r) !! path = Some (TextDocumentLike (w_next_id w) text)
  | None, None, None =>
      file_loads (trace_of r) = [] ∧ finder_documents (trace_of r) = [] ∧
      world_of r = w
  end.
Proof.
  cbn zeta. unfold trace_of, world_of, file_loads, finder_documents, findHoverOnRef,
    TextDocumentLike_load.
  cbn.
  destruct (w_open w !! file refData) as [d|]; cbn; [auto|].
  destruct (w_cache w !! file refData) as [d|]; cbn; [auto|].
  destruct (w_files w !! file refData) as [text|]; cbn; [|auto].
  split_and!; try reflexivity. apply lookup_insert_eq.
Qed.

(** A call for a file that is not open and is in the cache: no read, the
    finder is run on the cached document and its answer returned. *)
Lemma findHoverOnRef_cached refData token sched w d :
  w_open w !! file refData = None →
  w_cache w !! file refData = Some d →
  exec C (findHoverOnRef refData token) sched w
  = ([Op (Called (OpenDocumentLookup (file refData)) None);
      Op (Called (CacheLookup (file refData)) (Some d));
      Op (Called (FinderFindHoverOnRef d (position refData) refData token)
            (texMathEnvFinder_findHoverOnRef C d (position refData) refData token))],
     w,
     Returned (texMathEnvFinder_findHoverOnRef C d (position refData) refData token)).
Proof.
  intros Hopen Hcache. unfold findHoverOnRef, TextDocumentLike_load.
  cbn. rewrite Hopen. cbn. rewrite Hcache. reflexivity.
Qed.

(** A call for a file that is not open, not in the cache and readable:
    one read, the projected document enters the cache, the finder is run on
    it and its answer returned. *)
Lemma findHoverOnRef_loaded refData token sched w text :
  w_open w !! file refData = None →
  w_cache w !! file refData = None →
  w_files w !! file refData = Some text →
  let d := TextDocumentLike (w_next_id w) text in
  exec C (findHoverOnRef refData token) sched w
  = ([Op (Called (OpenDocumentLookup (file refData)) None);
      Op (Called (CacheLookup (file refData)) None);
      Op (Called (ReadFile (file refData)) (Some text));
      Op (Called (NewTextDocumentLike text) d);
      Op (Called (CacheStore (file refData) d) tt);
      Op (Called (FinderFindHoverOnRef d (position refData) refData token)
            (texMathEnvFinder_findHoverOnRef C d (position refData) refData token))],
     set_cache (<[file refData := d]> (w_cache w)) (set_next_id (S (w_next_id w)) w),
     Returned (texMathEnvFinder_findHoverOnRef C d (position refData) refData token)).
Proof.
  intros Hopen Hcache Hfiles. cbn zeta. unfold findHoverOnRef, TextDocumentLike_load.
  cbn. rewrite Hopen. cbn. rewrite Hcache. cbn. rewrite Hfiles. reflexivity.
Qed.

(** C8: two calls of [findHoverOnRef] for the same file, with any host
    events between them, read the file at most once between them.  When
    the file is open in the host at neither call and the first call can
    resolve it (from the cache or by reading it), the first call runs the
    finder on a document and returns the finder's answer on it; that
    document is in the cache when the second call is made; the second
    call reads nothing, runs the finder on the very same document and
    returns the finder's answer on it. *)
Theorem findHoverOnRef_loads_once r1 t1 r2 t2 hs s1 s2 w :
  file r1 = file r2 →
  let first := exec C (findHoverOnRef r1 t1) s1 w in
  let between := host_steps C hs (world_of first) in
  let second := exec C (findHoverOnRef r2 t2) s2 between.2 in
  let loads := file_loads (trace_of first ++ between.1 ++ trace_of second) in
  (loads = [] ∨ loads = [file r1]) ∧
  (w_open w !! file r1 = None → w_open between.2 !! file r1 = None →
   is_Some (w_cache w !! file r1) ∨ is_Some (w_files w !! file r1) →
   ∃ d,
     finder_documents (trace_of first) = [d] ∧
     outcome_of first
     = Returned (texMathEnvFinder_findHoverOnRef C d (position r1) r1 t1) ∧
     w_cache between.2 !! file r1 = Some d ∧
     file_loads (trace_of second) = [] ∧
     finder_documents (trace_of second) = [d] ∧
     outcome_of second
     = Returned (texMathEnvFinder_findHoverOnRef C d (position r2) r2 t2)).
Proof.
  intros Hfile. cbn zeta. split.
  - pose proof (findHoverOnRef_run r1 t1 s1 w) as H1.
    pose proof (findHoverOnRef_run r2 t2 s2
                  (host_steps C hs (world_of (exec C (findHoverOnRef r1 t1) s1 w))).2)
      as H2.
    cbn zeta in H1, H2. rewrite <- Hfile in H2.
    rewrite host_steps_cache in H2.
    unfold file_loads in *. rewrite !omap_app.
    rewrite (host_steps_quiet _ _ _ file_loaded_quiet). cbn [app].
    set (w1 := world_of (exec C (findHoverOnRef r1 t1) s1 w)) in *.
    set (w2 := (host_steps C hs w1).2) in *.
    destruct (w_open w !! file r1) as [d|] eqn:Hopen;
      [|destruct (w_cache w !! file r1) as [d|] eqn:Hcache;
        [|destruct (w_files w !! file r1) as [text|] eqn:Hfiles]].
    + destruct H1 as (Hl1 & _ & _). rewrite Hl1. cbn [app].
      destruct (w_open w2 !! file r1), (w_cache w1 !! file r1), (w_files w2 !! file r1);
        destruct H2 as (-> & _); auto.
    + destruct H1 as (Hl1 & _ & Hw1). rewrite Hl1. cbn [app].
      rewrite Hw1, Hcache in H2.
      destruct (w_open w2 !! file r1); destruct H2 as (-> & _); auto.
    + destruct H1 as (Hl1 & _ & Hw1). rewrite Hl1, Hw1 in *.
      destruct (w_open w2 !! file r1); destruct H2 as (-> & _); auto.
    + destruct H1 as (Hl1 & _ & Hw1). rewrite Hl1. cbn [app].
      rewrite Hw1, Hcache in H2.
      destruct (w_open w2 !! file r1), (w_files w2 !! file r1);
        destruct H2 as (-> & _); auto.
  - intros Hopen Hopen2 Hres.
    assert (Hfirst : ∃ d,
      finder_documents (trace_of (exec C (findHoverOnRef r1 t1) s1 w)) = [d] ∧
      outcome_of (exec C (findHoverOnRef r1 t1) s1 w)
      = Returned (texMathEnvFinder_findHoverOnRef C d (position r1) r1 t1) ∧
      w_cache (world_of (exec C (findHoverOnRef r1 t1) s1 w)) !! file r1 = Some d).
    { destruct (w_cache w !! file r1) as [d|] eqn:Hcache.
      - exists d. rewrite (findHoverOnRef_cached r1 t1 s1 w d Hopen Hcache).
        split_and!; [reflexivity | reflexivity | exact Hcache].
      - destruct Hres as [[d Hd]|[text Htext]]; [discriminate|].
        exists (TextDocumentLike (w_next_id w) text).
        rewrite (findHoverOnRef_loaded r1 t1 s1 w text Hopen Hcache Htext).
        split_and!; [reflexivity | reflexivity | apply lookup_insert_eq]. }
    destruct Hfirst as (d & Hd1 & Hout1 & Hcache1).
    assert (Hcache2 :
      w_cache (host_steps C hs (world_of (exec C (findHoverOnRef r1 t1) s1 w))).2
        !! file r2 = Some d)
      by (rewrite host_steps_cache, <- Hfile; exact Hcache1).
    rewrite Hfile in Hopen2.
    exists d. rewrite (findHoverOnRef_cached r2 t2 s2 _ d Hopen2 Hcache2).
    split_and!; try reflexivity; try assumption.
    rewrite Hfile. exact Hcache2.
Qed.

(** *** Further properties of the runs *)

Lemma log_message_quiet e : made_by_host e = true → log_message e = None.
Proof.
  destruct e as [[? c ?| |]| |[? c ?| |]]; cbn; try discriminate; try reflexivity.
  destruct c; cbn; try discriminate; reflexivity.
Qed.

Lemma preview_submitted_quiet e : made_by_host e = true → preview_submitted e = None.
Proof. destruct e as [[]| |[]]; cbn; try discriminate; reflexivity. Qed.

(** Puts a computed run in the shape [(trace, world, outcome)] with the
    trace associated to the right. *)
Ltac run_to_end :=
  cbn; unfold emit; cbn; rewrite <- ?app_assoc; cbn.

(** X1: when the engine answers the request of [provideHoverOnTex] with
    [xml], the call returns the hover made of the image link to the data
    URL of [xml], wrapped by [addDummyCodeBlock], over the range of the
    region; nothing is handed to the logger. *)
Theorem provideHoverOnTex_success document tex newCommand s sched w xml :
  let typesetArg :=
    newCommand +:+
    stripTeX C (mathjaxify C
      (cursorRenderer_renderCursor C document (range tex) (w_color w)) (envname tex)) in
  let request :=
    Typeset typesetArg
      {| scale := config_get (w_config w) "hover.preview.scale"; color := w_color w |} in
  settle s _ request = inr xml →
  exec C (provideHoverOnTex C document tex newCommand) (s :: sched) w
  = ([Op (Called (GetConfiguration "latex-workshop") (w_config w));
      Op (Called ReadColor (w_color w));
      Op (Called (RenderCursor document (range tex) (w_color w))
            (cursorRenderer_renderCursor C document (range tex) (w_color w)));
      Op (Called ReadColor (w_color w));
      Op (Submitted request)]
     ++ (host_steps C (during s) w).1
     ++ [Op (Settled request (inr xml))],
     (host_steps C (during s) w).2,
     Returned
       {| contents :=
            [Markdown
               {| value := addDummyCodeBlock C
                             ("![equation](" +:+ svgToDataUrl C xml +:+ ")");
                  isTrusted := false |}];
          hover_range := Some (range tex) |}).
Proof.
  intros typesetArg request Hxml.
  cbn. fold typesetArg. fold request. rewrite Hxml. run_to_end. reflexivity.
Qed.

(** X2: with the setting hover.ref.enabled off (or missing, or any falsy
    value) [provideHoverOnRef] does not run the finder at all: whatever
    region the reference may have, the call asks the host for the word
    range and returns the plain-text hover. *)
Theorem provideHoverOnRef_disabled document p refData token ctoken sched w :
  truthy (config_get (w_config w) "hover.ref.enabled") = false →
  exec C (provideHoverOnRef C document p refData token ctoken) sched w
  = ([Op (Called (GetConfiguration "latex-workshop") (w_config w));
      Op (Called (GetWordRangeAtPosition document p "\{.*?\}")
            (document_getWordRangeAtPosition C document p "\{.*?\}"))],
     w,
     Returned
       {| contents :=
            Plain ("```latex" +:+ nl +:+ documentation refData +:+ nl +:+ "```" +:+ nl)
            :: match prevIndex refData with
               | Some n =>
                   if truthy (config_get (w_config w) "hover.ref.number.enabled")
                   then [Plain ("numbered " +:+ refNumber n +:+ " at last compilation")]
                   else []
               | None => []
               end
            ++ [Markdown
                  {| value := "[View on pdf](" +:+
                              synctexLink C (line (position refData)) (file refData)
                              +:+ ")";
                     isTrusted := true |}];
          hover_range := document_getWordRangeAtPosition C document p "\{.*?\}" |}).
Proof.
  intros Hoff. unfold provideHoverOnRef, provideHoverOnRef_text, refNumberMessage.
  cbn. rewrite Hoff. cbn.
  destruct (prevIndex refData) as [n|]; cbn;
    try destruct (truthy (config_get (w_config w) "hover.ref.number.enabled"));
    reflexivity.
Qed.

(** X3: when reference hovers are on and the finder has a region,
    [provideHoverOnRef] starts the project scan with the caller's
    cancellation token.  If the scan is rejected the call throws that
    rejection and asks for no preview.  Otherwise it reads the field once
    the scan has settled, so that the preview is asked for with the color
    the host's events during the scan led to, and the call ends as the
    provider's promise does. *)
Theorem provideHoverOnRef_preview_run document p refData token ctoken tex s1 s2 sched w :
  truthy (config_get (w_config w) "hover.ref.enabled") = true →
  texMathEnvFinder_findHoverOnRef C document p refData token = Some tex →
  let scan := FindProjectNewCommand (Some ctoken) in
  let w1 := (host_steps C (during s1) w).2 in
  let start :=
    [Op (Called (GetConfiguration "latex-workshop") (w_config w));
     Op (Called (FinderFindHoverOnRef document p refData token) (Some tex));
     Op (Submitted scan)]
    ++ (host_steps C (during s1) w).1 in
  exec C (provideHoverOnRef C document p refData token ctoken) (s1 :: s2 :: sched) w
  = match settle s1 _ scan with
    | inl e => (start ++ [Op (Settled scan (inl e))], w1, Thrown e)
    | inr nc =>
        let request := ProvideHoverPreviewOnRef tex nc refData (w_color w1) in
        (start
         ++ [Op (Settled scan (inr nc));
             Op (Called ReadColor (w_color w1));
             Op (Submitted request)]
         ++ (host_steps C (during s2) w1).1
         ++ [Op (Settled request (settle s2 _ request))],
         (host_steps C (during s2) w1).2,
         match settle s2 _ request with
         | inl e => Thrown e
         | inr h => Returned h
         end)
    end.
Proof.
  intros Hon Hsome. cbn zeta. unfold provideHoverOnRef. cbn.
  rewrite Hon. cbn. rewrite Hsome. cbn.
  destruct (settle s1 string _) as [e|nc]; run_to_end; [reflexivity|].
  destruct (settle s2 Hover _) as [e|h]; run_to_end; reflexivity.
Qed.

(** X4: in [generateSVG] without an override and in [renderSvgOnRef] a
    rejected project scan ends the call at once: the rejection is thrown
    unchanged, nothing is submitted to the engine and the field is not even
    read. *)
Theorem scan_rejection_aborts tex refData ctoken s sched w e1 e2 :
  settle s _ (FindProjectNewCommand None) = inl e1 →
  settle s _ (FindProjectNewCommand (Some ctoken)) = inl e2 →
  exec C (generateSVG C tex None) (s :: sched) w
  = (Op (Submitted (FindProjectNewCommand None))
     :: (host_steps C (during s) w).1
     ++ [Op (Settled (FindProjectNewCommand None) (inl e1))],
     (host_steps C (during s) w).2,
     Thrown e1) ∧
  exec C (renderSvgOnRef C tex refData ctoken) (s :: sched) w
  = (Op (Submitted (FindProjectNewCommand (Some ctoken)))
     :: (host_steps C (during s) w).1
     ++ [Op (Settled (FindProjectNewCommand (Some ctoken)) (inl e2))],
     (host_steps C (during s) w).2,
     Thrown e2).
Proof.
  intros H1 H2. split.
  - cbn. rewrite H1. run_to_end. reflexivity.
  - cbn. rewrite H2. run_to_end. reflexivity.
Qed.

(** X5: [generateSVG] without an override is the project scan followed by
    [generateSVG] with the scanned macros as the override, run in the world
    the host's events during the scan led to.  In particular the color of
    its request is the field's value when the scan has settled, not when
    the call was made. *)
Theorem generateSVG_scan_then_override tex s sched w nc :
  settle s _ (FindProjectNewCommand None) = inr nc →
  let w1 := (host_steps C (during s) w).2 in
  exec C (generateSVG C tex None) (s :: sched) w
  = emit (Op (Submitted (FindProjectNewCommand None))
          :: (host_steps C (during s) w).1
          ++ [Op (Settled (FindProjectNewCommand None) (inr nc))])
      (exec C (generateSVG C tex (Some nc)) sched w1) ∧
  typeset_submissions (trace_of (exec C (generateSVG C tex None) (s :: sched) w))
  = [(nc +:+ stripTeX C (mathjaxify C (texString tex) (envname tex)),
      {| scale := config_get (w_config w1) "hover.preview.scale";
         color := w_color w1 |})].
Proof.
  intros Hnc. cbn zeta. split.
  - cbn. rewrite Hnc. reflexivity.
  - read_trace. rewrite Hnc. read_trace.
    destruct sched as [|s' sched]; [reflexivity|].
    read_trace. destruct (settle s' string _); read_trace; reflexivity.
Qed.

(** *** What the operations never call *)

Lemma EverySync_bind (Q : ∀ X : Type, Sync X → Prop) {A B : Type}
    (p : Prog A) (f : A → Prog B) :
  EverySync Q p → (∀ a, EverySync Q (f a)) → EverySync Q (p ≫= f).
Proof.
  intros Hp Hf. unfold mbind, prog_bind.
  induction Hp as [a|e|X c k Hc _ IH|X c k _ IH]; cbn.
  - apply Hf.
  - constructor.
  - constructor; [exact Hc | exact IH].
  - constructor. exact IH.
Qed.

Lemma EverySync_try_catch (Q : ∀ X : Type, Sync X → Prop) {A : Type}
    (p : Prog A) (h : Exn → Prog A) :
  EverySync Q p → (∀ e, EverySync Q (h e)) → EverySync Q (try_catch p h).
Proof.
  intros Hp Hh.
  induction Hp as [a|e|X c k Hc _ IH|X c k _ IH]; cbn.
  - constructor.
  - apply Hh.
  - constructor; [exact Hc | exact IH].
  - constructor. exact IH.
Qed.

Lemma EverySync_call (Q : ∀ X : Type, Sync X → Prop) {X : Type} (c : Sync X) :
  Q X c → EverySync Q (call c).
Proof. intros Hc. constructor; [exact Hc | intros x; constructor]. Qed.

Lemma EverySync_await (Q : ∀ X : Type, Sync X → Prop) {X : Type} (c : Async X) :
  EverySync Q (await c).
Proof. constructor. intros [e|x]; constructor. Qed.

(** Walks through a method's body and checks each synchronous call met. *)
Ltac survey :=
  repeat first
    [ apply es_ret
    | apply es_throw
    | apply EverySync_await
    | apply EverySync_call; reflexivity
    | apply EverySync_try_catch; [|intros ?]
    | apply EverySync_bind; [|intros ?]
    | match goal with
      | |- EverySync _ (match ?x with _ => _ end) => destruct x
      end ].

Lemma op_never_logs o :
  is_provideHoverOnTex o = false →
  on_source o = true →
  EverySync (λ X c, logged_by c = None) (op_prog C o).
Proof.
  destruct o; cbn [is_provideHoverOnTex on_source op_prog]; intros Hop Hsrc;
    try discriminate.
  - unfold findProjectNewCommand. survey.
  - unfold provideHoverOnRef, provideHoverOnRef_text, findProjectNewCommand. survey.
  - unfold generateSVG. survey.
  - unfold getColor. survey.
  - unfold renderCursor. survey.
  - unfold findHoverOnTex. survey.
  - unfold findMathEnvIncludingPosition. survey.
Qed.

Lemma op_consults_only o :
  consults_only o = true →
  EverySync (λ X c, mutates c = false) (op_prog C o).
Proof.
  destruct o; cbn [consults_only op_prog]; intros Hop; try discriminate.
  - unfold findProjectNewCommand. survey.
  - unfold provideHoverOnTex. survey.
  - unfold provideHoverOnRef, provideHoverOnRef_text, findProjectNewCommand. survey.
  - unfold generateSVG. survey.
  - unfold renderCursor. survey.
  - unfold findHoverOnTex. survey.
  - unfold renderSvgOnRef, hoverPreviewOnRefProvider_renderSvgOnRef,
      findProjectNewCommand. survey.
  - unfold findMathEnvIncludingPosition. survey.
Qed.

Lemma exec_never_logs {A : Type} (p : Prog A) sched w :
  EverySync (λ X c, logged_by c = None) p →
  logged (trace_of (exec C p sched w)) = [].
Proof.
  intros Hp. revert sched w. unfold trace_of, logged.
  induction Hp as [a|e|X c k Hc _ IH|X c k _ IH]; intros sched w;
    cbn [exec emit fst snd].
  - reflexivity.
  - reflexivity.
  - rewrite omap_app, IH. cbn. rewrite Hc. reflexivity.
  - destruct sched as [|s sched]; cbn [emit fst snd]; [reflexivity|].
    rewrite omap_app, IH. cbn. rewrite omap_app.
    rewrite (host_steps_quiet _ _ _ log_message_quiet). reflexivity.
Qed.

Lemma handle_consults {X : Type} (c : Sync X) w :
  mutates c = false → (handle C c w).2 = w.
Proof. destruct c; cbn; intros Hc; try reflexivity; discriminate. Qed.

Lemma exec_leaves_world {A : Type} (p : Prog A) sched w :
  EverySync (λ X c, mutates c = false) p →
  Forall (λ s, during s = []) sched →
  world_of (exec C p sched w) = w.
Proof.
  intros Hp. revert sched w. unfold world_of.
  induction Hp as [a|e|X c k Hc _ IH|X c k _ IH]; intros sched w Hquiet;
    cbn [exec emit fst snd].
  - reflexivity.
  - reflexivity.
  - rewrite IH by exact Hquiet. apply handle_consults. exact Hc.
  - destruct sched as [|s sched]; cbn [emit fst snd]; [reflexivity|].
    inversion Hquiet as [|? ? Hs Hrest]; subst.
    rewrite IH by exact Hrest. rewrite Hs. reflexivity.
Qed.

(** X6: among the operations whose whole body is in the source (all but
    [findHoverOnRef] and [renderSvgOnRef]) the logger is used by
    [provideHoverOnTex] alone, and by it only when the engine rejects the
    request: then it gets the rejection and the message naming the source,
    in that order.  None of the others hands anything to the logger itself,
    however its promises settle; a rejected scan or a rejected request of
    [generateSVG] leaves no trace in the log. *)
Theorem logger_used_on_rejected_typeset_only o document tex newCommand s sched sched' w :
  is_provideHoverOnTex o = false →
  on_source o = true →
  logged (trace_of (exec C (op_prog C o) sched w)) = [] ∧
  logged (trace_of (exec C (provideHoverOnTex C document tex newCommand) [] w)) = [] ∧
  let typesetArg :=
    newCommand +:+
    stripTeX C (mathjaxify C
      (cursorRenderer_renderCursor C document (range tex) (w_color w)) (envname tex)) in
  let request :=
    Typeset typesetArg
      {| scale := config_get (w_config w) "hover.preview.scale"; color := w_color w |} in
  logged (trace_of (exec C (provideHoverOnTex C document tex newCommand) (s :: sched') w))
  = match settle s _ request with
    | inl e => [inl e; inr ("Error when MathJax is rendering " +:+ typesetArg)]
    | inr _ => []
    end.
Proof.
  intros Hop Hsrc. split_and!.
  - apply exec_never_logs, op_never_logs; assumption.
  - reflexivity.
  - cbn zeta. unfold trace_of, logged. cbn.
    repeat (rewrite omap_app; cbn).
    rewrite (host_steps_quiet _ _ _ log_message_quiet).
    destruct (settle s string _); reflexivity.
Qed.

(** X7: an operation other than [getColor] and [findHoverOnRef] changes
    nothing at all: if the host stays silent while the call is suspended,
    the world after the call (field, settings, open documents, files, cache)
    is the world before it, whether the call returns, throws or stays
    pending. *)
Theorem consulting_operations_leave_world o sched w :
  consults_only o = true →
  Forall (λ s, during s = []) sched →
  world_of (exec C (op_prog C o) sched w) = w.
Proof.
  intros Hop Hquiet. apply exec_leaves_world; [|exact Hquiet].
  apply op_consults_only, Hop.
Qed.

(** *** The field and the theme *)

Lemma handle_theme_kept {X : Type} (c : Sync X) w : w_theme (handle C c w).2 = w_theme w.
Proof. destruct c; reflexivity. Qed.

Lemma fire_in_sync w : in_sync (fire_onDidChangeConfiguration C w).2.
Proof.
  unfold in_sync, fire_onDidChangeConfiguration, onDidChangeConfiguration_listener. cbn.
  destruct (String.eqb (w_theme w) "light") eqn:Hl; cbn; rewrite Hl; reflexivity.
Qed.

Lemma host_step_in_sync h w : in_sync w → in_sync (host_step C h w).2.
Proof.
  intros Hw. destruct h; cbn [host_step snd]; try exact Hw; apply fire_in_sync.
Qed.

Lemma host_steps_in_sync hs w : in_sync w → in_sync (host_steps C hs w).2.
Proof.
  revert w. induction hs as [|h hs IH]; intros w Hw; cbn [host_steps snd].
  - exact Hw.
  - apply IH, host_step_in_sync, Hw.
Qed.

Lemma exec_in_sync {A : Type} (p : Prog A) sched w :
  NoColorWrite p → in_sync w → in_sync (world_of (exec C p sched w)).
Proof.
  intros Hp. revert sched w. unfold world_of.
  induction Hp as [a|e|X c k Hc _ IH|X c k _ IH]; intros sched w Hw;
    cbn [exec emit fst snd].
  - exact Hw.
  - exact Hw.
  - apply IH. unfold in_sync. rewrite handle_theme_kept.
    rewrite handle_color_kept; [exact Hw|].
    destruct (written c) as [col|]; [destruct (Hc col eq_refl) | reflexivity].
  - destruct sched as [|s sched]; cbn [emit fst snd]; [exact Hw|].
    apply IH. apply host_steps_in_sync, Hw.
Qed.

Lemma getColor_in_sync sched w : in_sync (world_of (exec C getColor sched w)).
Proof.
  unfold in_sync, world_of. cbn.
  destruct (String.eqb (w_theme w) "light") eqn:Hl; cbn; rewrite Hl; reflexivity.
Qed.

(** X8: once the field agrees with the theme it keeps agreeing: every
    operation, under any schedule, and every host event (a change of theme
    is announced to the listener, which calls [getColor]) ends in a world
    where the field is the foreground that goes with the reported
    lightness. *)
Theorem color_stays_in_sync w :
  in_sync w →
  (∀ o sched, in_sync (world_of (exec C (op_prog C o) sched w))) ∧
  (∀ hs, in_sync (host_steps C hs w).2).
Proof.
  intros Hw. split.
  - intros o sched. destruct (is_getColor o) eqn:Hop.
    + destruct o; try discriminate. apply getColor_in_sync.
    + apply exec_in_sync; [apply op_no_write; exact Hop | exact Hw].
  - intros hs. apply host_steps_in_sync, Hw.
Qed.

(** X9: [getColor] brings the field in agreement with the theme from any
    state; its result does not depend on the field's previous value, and
    calling it again changes nothing.  The constructor does not call it:
    a coordinator constructed under a dark theme holds '#000000' until the
    first notification. *)
Theorem getColor_brings_in_sync sched sched' w c :
  in_sync (world_of (exec C getColor sched w)) ∧
  world_of (exec C getColor sched (set_color c w)) = world_of (exec C getColor sched w) ∧
  world_of (exec C getColor sched' (world_of (exec C getColor sched w)))
  = world_of (exec C getColor sched w) ∧
  ∃ l, initial l ∧ w_theme (loop_world l) = "dark" ∧ ¬ in_sync (loop_world l).
Proof.
  split_and!.
  - apply getColor_in_sync.
  - unfold world_of. cbn. destruct (String.eqb (w_theme w) "light"); reflexivity.
  - unfold world_of. cbn. destruct (String.eqb (w_theme w) "light") eqn:Hl; cbn;
      rewrite Hl; reflexivity.
  - exists Sample.started_dark_loop. split_and!.
    + repeat split.
    + reflexivity.
    + unfold in_sync. cbn. discriminate.
Qed.

(** *** The numbering message *)

Lemma length_append (a b : string) :
  String.length (a +:+ b) = String.length a + String.length b.
Proof.
  induction a as [|x a IH]; [reflexivity|].
  change (S (String.length (a +:+ b)) = S (String.length a + String.length b)).
  f_equal. exact IH.
Qed.

Lemma append_cancel_r (a b suffix : string) : a +:+ suffix = b +:+ suffix → a = b.
Proof.
  intros Hab.
  assert (Hlen : String.length a = String.length b).
  { apply (f_equal String.length) in Hab. rewrite !length_append in Hab. lia. }
  revert b Hab Hlen. induction a as [|x a IH]; intros [|y b] Hab Hlen;
    cbn in Hlen; try discriminate.
  - reflexivity.
  - change (String x (a +:+ suffix) = String y (b +:+ suffix)) in Hab.
    injection Hab as -> Hab. f_equal. apply IH; [exact Hab | lia].
Qed.

(** X10: the numbering message tells the number: two references get the
    same message from [refNumberMessage] only if both have no previous
    compile number or both have the same one. *)
Theorem refNumberMessage_tells_number r1 r2 :
  refNumberMessage r1 = refNumberMessage r2 →
  refNumber <$> prevIndex r1 = refNumber <$> prevIndex r2.
Proof.
  unfold refNumberMessage.
  destruct (prevIndex r1) as [n1|], (prevIndex r2) as [n2|]; cbn;
    intros Heq; try discriminate; [|reflexivity].
  injection Heq as Heq. f_equal.
  apply (append_cancel_r _ _ " at last compilation"). exact Heq.
Qed.

End Properties.

(** ** The properties at sample inputs *)



Lemma provideHoverOnTex_rethrows_witness :
  settle Sample.rejecting string
    (Typeset "\newcommand{\R}{\mathbb{R}}\begin{equation}x{\color{#000000}|}\end{equation}"
       {| scale := JsUndefined; color := "#000000" |})
  = inl (Error "TeX parse error") ∧
  outcome_of
    (exec Sample.collaborators
       (provideHoverOnTex Sample.collaborators Sample.document Sample.tex
          "\newcommand{\R}{\mathbb{R}}")
       [Sample.rejecting] Sample.world)
  = Thrown (Error "TeX parse error").
Proof.
  split; [reflexivity|].
  exact (f_equal snd
           (provideHoverOnTex_rethrows Sample.collaborators Sample.document Sample.tex
              "\newcommand{\R}{\mathbb{R}}" Sample.rejecting [] Sample.world
              (Error "TeX parse error") eq_refl)).
Defined.

(** Scenario D of the specification: the theme turns dark while a request
    is with the engine.  The request keeps '#000000'; the next one carries
    '#ffffff'. *)
Example theme_turns_dark_mid_session :
  let first :=
    exec Sample.collaborators
      (provideHoverOnTex Sample.collaborators Sample.document Sample.tex "")
      [Sample.answering_while_theme_turns_dark] Sample.world in
  let second :=
    exec Sample.collaborators
      (provideHoverOnTex Sample.collaborators Sample.document Sample.tex "")
      [] (world_of first) in
  (color ∘ snd) <$> typeset_settlements (trace_of first) = ["#000000"] ∧
  w_color (world_of first) = "#ffffff" ∧
  (color ∘ snd) <$> typeset_submissions (trace_of second) = ["#ffffff"].
Proof. split_and!; reflexivity. Qed.

(** C7, as first stated, fails: a reference numbered "1" at the last
    compilation, hovered with hover.ref.number.enabled off, gets the fenced
    documentation and the link and no note. *)
Lemma numbered_reference_without_note :
  prevIndex Sample.numbered_ref = Some {| refNumber := "1"; pageNumber := "1" |} ∧
  outcome_of
    (exec Sample.collaborators
       (provideHoverOnRef Sample.collaborators Sample.document Sample.origin
          Sample.numbered_ref "eq:1" Sample.ctoken)
       [] Sample.world_numbers_off)
  = Returned
      {| contents :=
           [Plain ("```latex" +:+ nl +:+ "x" +:+ nl +:+ "```" +:+ nl);
            Markdown
              {| value := "[View on pdf](command:latex-workshop.synctexto?main.tex)";
                 isTrusted := true |}];
         hover_range := None |} ∧
  ¬ (∃ n, Plain ("numbered " +:+ n +:+ " at last compilation")
          ∈ [Plain ("```latex" +:+ nl +:+ "x" +:+ nl +:+ "```" +:+ nl);
             Markdown
               {| value := "[View on pdf](command:latex-workshop.synctexto?main.tex)";
                  isTrusted := true |}]).
Proof.
  split_and!; [reflexivity | reflexivity |].
  intros Hnote.
  apply (note_among_contents "x"
           {| value := "[View on pdf](command:latex-workshop.synctexto?main.tex)";
              isTrusted := true |} []) in Hnote.
  destruct Hnote as [n Hin]. apply elem_of_nil in Hin. exact Hin.
Qed.

Lemma provideHoverOnRef_numbering_note_witness :
  (truthy (config_get (w_config Sample.world_numbers_off) "hover.ref.enabled") = true →
   texMathEnvFinder_findHoverOnRef Sample.collaborators Sample.document Sample.origin
     Sample.numbered_ref "eq:1" = None) ∧
  ∃ h,
    outcome_of
      (exec Sample.collaborators
         (provideHoverOnRef Sample.collaborators Sample.document Sample.origin
            Sample.numbered_ref "eq:1" Sample.ctoken)
         [] Sample.world_numbers_off)
    = Returned h ∧
    ((∃ n, Plain ("numbered " +:+ n +:+ " at last compilation") ∈ contents h) ↔
     (is_Some (prevIndex Sample.numbered_ref) ∧
      truthy (config_get (w_config Sample.world_numbers_off) "hover.ref.number.enabled")
      = true)).
Proof.
  split; [reflexivity|].
  destruct (provideHoverOnRef_numbering_note Sample.collaborators Sample.document
              Sample.origin Sample.numbered_ref "eq:1" Sample.ctoken []
              Sample.world_numbers_off (λ _, eq_refl)) as (h & Hout & Hiff & _).
  exists h. split; [exact Hout | exact Hiff].
Defined.

Lemma findHoverOnRef_loads_once_witness :
  file Sample.numbered_ref = file Sample.unnumbered_ref ∧
  let first :=
    exec Sample.collaborators (findHoverOnRef Sample.numbered_ref "eq:1") []
      Sample.world_with_file in
  let between :=
    host_steps Sample.collaborators [FileRemoved "main.tex"] (world_of first) in
  let second :=
    exec Sample.collaborators (findHoverOnRef Sample.unnumbered_ref "eq:2") [] between.2 in
  file_loads (trace_of first ++ between.1 ++ trace_of second) = ["main.tex"] ∧
  finder_documents (trace_of first)
  = [TextDocumentLike 0 "\begin{equation}\label{eq:1}x\end{equation}"] ∧
  (file_loads (trace_of first ++ between.1 ++ trace_of second) = [] ∨
   file_loads (trace_of first ++ between.1 ++ trace_of second) = ["main.tex"]) ∧
  ∃ d,
    finder_documents (trace_of first) = [d] ∧
    outcome_of first
    = Returned (texMathEnvFinder_findHoverOnRef Sample.collaborators d
                  (position Sample.numbered_ref) Sample.numbered_ref "eq:1") ∧
    w_cache between.2 !! "main.tex" = Some d ∧
    file_loads (trace_of second) = [] ∧
    finder_documents (trace_of second) = [d] ∧
    outcome_of second
    = Returned (texMathEnvFinder_findHoverOnRef Sample.collaborators d
                  (position Sample.unnumbered_ref) Sample.unnumbered_ref "eq:2").
Proof.
  split; [reflexivity|]. cbn zeta.
  split; [reflexivity|]. split; [reflexivity|].
  pose proof (findHoverOnRef_loads_once Sample.collaborators Sample.numbered_ref "eq:1"
                Sample.unnumbered_ref "eq:2" [FileRemoved "main.tex"] [] []
                Sample.world_with_file eq_refl) as [Hloads Hsame].
  split; [exact Hloads|].
  exact (Hsame eq_refl eq_refl (or_intror (ex_intro _ _ eq_refl))).
Defined.

Lemma color_written_only_by_listener_witness :
  is_getColor (OpProvideHoverOnTex Sample.document Sample.tex "") = false ∧
  color_writes_by_op
    (trace_of
       (exec Sample.collaborators
          (op_prog Sample.collaborators (OpProvideHoverOnTex Sample.document Sample.tex ""))
          [Sample.answering_while_theme_turns_dark] Sample.world))
  = [].
Proof.
  split; [reflexivity|].
  exact (proj1 (proj2 (proj2
           (color_written_only_by_listener Sample.collaborators
              (OpProvideHoverOnTex Sample.document Sample.tex "")
              [Sample.answering_while_theme_turns_dark] Sample.world eq_refl)))).
Defined.

Lemma color_two_valued_invariant_witness :
  reachable Sample.collaborators Sample.dark_loop ∧
  two_valued (w_color (loop_world Sample.dark_loop)).
Proof.
  assert (Hreach : reachable Sample.collaborators Sample.dark_loop).
  { apply (reachable_step Sample.collaborators Sample.fresh_loop).
    - apply reachable_initial. repeat split.
    - exact (loop_host Sample.collaborators (ThemeChanged "dark") Sample.fresh_loop). }
  split; [exact Hreach|].
  exact (proj1 (color_two_valued_invariant Sample.collaborators Sample.dark_loop Hreach)).
Defined.

(** ** The further properties at sample inputs *)

Lemma provideHoverOnTex_success_witness :
  settle Sample.answering string
    (Typeset "\begin{equation}x{\color{#000000}|}\end{equation}"
       {| scale := JsUndefined; color := "#000000" |})
  = inr "<svg/>" ∧
  outcome_of
    (exec Sample.collaborators
       (provideHoverOnTex Sample.collaborators Sample.document Sample.tex "")
       [Sample.answering] Sample.world)
  = Returned
      {| contents :=
           [Markdown {| value := "![equation](data:image/svg+xml;utf8,<svg/>)";
                        isTrusted := false |}];
         hover_range := Some (range Sample.tex) |}.
Proof.
  split; [reflexivity|].
  exact (f_equal snd
           (provideHoverOnTex_success Sample.collaborators Sample.document Sample.tex ""
              Sample.answering [] Sample.world "<svg/>" eq_refl)).
Defined.

Lemma provideHoverOnRef_disabled_witness :
  truthy (config_get (w_config Sample.world) "hover.ref.enabled") = false ∧
  texMathEnvFinder_findHoverOnRef Sample.finding_collaborators Sample.document
    Sample.origin Sample.unnumbered_ref "eq:2" = Some Sample.tex ∧
  outcome_of
    (exec Sample.finding_collaborators
       (provideHoverOnRef Sample.finding_collaborators Sample.document Sample.origin
          Sample.unnumbered_ref "eq:2" Sample.ctoken)
       [Sample.answering] Sample.world)
  = Returned
      {| contents :=
           [Plain ("```latex" +:+ nl +:+ "y" +:+ nl +:+ "```" +:+ nl);
            Markdown
              {| value := "[View on pdf](command:latex-workshop.synctexto?main.tex)";
                 isTrusted := true |}];
         hover_range := None |}.
Proof.
  split; [reflexivity|]. split; [reflexivity|].
  exact (f_equal snd
           (provideHoverOnRef_disabled Sample.finding_collaborators Sample.document
              Sample.origin Sample.unnumbered_ref "eq:2" Sample.ctoken [Sample.answering]
              Sample.world eq_refl)).
Defined.

Lemma provideHoverOnRef_preview_run_witness :
  truthy (config_get (w_config Sample.world_numbers_off) "hover.ref.enabled") = true ∧
  texMathEnvFinder_findHoverOnRef Sample.finding_collaborators Sample.document
    Sample.origin Sample.numbered_ref "eq:1" = Some Sample.tex ∧
  let r :=
    exec Sample.finding_collaborators
      (provideHoverOnRef Sample.finding_collaborators Sample.document Sample.origin
         Sample.numbered_ref "eq:1" Sample.ctoken)
      [Sample.answering_while_theme_turns_dark; Sample.answering]
      Sample.world_numbers_off in
  scans (trace_of r) = [Some Sample.ctoken] ∧
  previews (trace_of r)
  = [(Sample.tex, "\newcommand{\R}{\mathbb{R}}", Sample.numbered_ref, "#ffffff")] ∧
  outcome_of r = Returned Sample.preview_hover.
Proof.
  split; [reflexivity|]. split; [reflexivity|]. cbn zeta.
  pose proof (provideHoverOnRef_preview_run Sample.finding_collaborators Sample.document
                Sample.origin Sample.numbered_ref "eq:1" Sample.ctoken Sample.tex
                Sample.answering_while_theme_turns_dark Sample.answering []
                Sample.world_numbers_off eq_refl eq_refl) as Hrun.
  split_and!.
  - exact (f_equal (λ r, scans (trace_of r)) Hrun).
  - exact (f_equal (λ r, previews (trace_of r)) Hrun).
  - exact (f_equal snd Hrun).
Defined.

Lemma scan_rejection_aborts_witness :
  settle Sample.rejecting string (FindProjectNewCommand None)
  = inl (Error "TeX parse error") ∧
  settle Sample.rejecting string (FindProjectNewCommand (Some Sample.ctoken))
  = inl (Error "TeX parse error") ∧
  outcome_of
    (exec Sample.collaborators (generateSVG Sample.collaborators Sample.tex None)
       [Sample.rejecting; Sample.answering] Sample.world)
  = Thrown (Error "TeX parse error") ∧
  outcome_of
    (exec Sample.collaborators
       (renderSvgOnRef Sample.collaborators Sample.tex Sample.numbered_ref Sample.ctoken)
       [Sample.rejecting; Sample.answering] Sample.world)
  = Thrown (Error "TeX parse error").
Proof.
  split; [reflexivity|]. split; [reflexivity|].
  pose proof (scan_rejection_aborts Sample.collaborators Sample.tex Sample.numbered_ref
                Sample.ctoken Sample.rejecting [Sample.answering] Sample.world
                (Error "TeX parse error") (Error "TeX parse error") eq_refl eq_refl)
    as [Hg Hr].
  split; [exact (f_equal snd Hg) | exact (f_equal snd Hr)].
Defined.

Lemma generateSVG_scan_then_override_witness :
  settle Sample.answering_while_theme_turns_dark string (FindProjectNewCommand None)
  = inr "\newcommand{\R}{\mathbb{R}}" ∧
  typeset_submissions
    (trace_of
       (exec Sample.collaborators (generateSVG Sample.collaborators Sample.tex None)
          [Sample.answering_while_theme_turns_dark] Sample.world))
  = [("\newcommand{\R}{\mathbb{R}}\begin{equation}x\end{equation}",
      {| scale := JsUndefined; color := "#ffffff" |})].
Proof.
  split; [reflexivity|].
  exact (proj2 (generateSVG_scan_then_override Sample.collaborators Sample.tex
                  Sample.answering_while_theme_turns_dark [] Sample.world
                  "\newcommand{\R}{\mathbb{R}}" eq_refl)).
Defined.

Lemma logger_used_on_rejected_typeset_only_witness :
  is_provideHoverOnTex (OpGenerateSVG Sample.tex (Some "")) = false ∧
  on_source (OpGenerateSVG Sample.tex (Some "")) = true ∧
  outcome_of
    (exec Sample.collaborators
       (op_prog Sample.collaborators (OpGenerateSVG Sample.tex (Some "")))
       [Sample.rejecting] Sample.world)
  = Thrown (Error "TeX parse error") ∧
  logged
    (trace_of
       (exec Sample.collaborators
          (op_prog Sample.collaborators (OpGenerateSVG Sample.tex (Some "")))
          [Sample.rejecting] Sample.world))
  = [].
Proof.
  split; [reflexivity|]. split; [reflexivity|]. split; [reflexivity|].
  exact (proj1 (logger_used_on_rejected_typeset_only Sample.collaborators
                  (OpGenerateSVG Sample.tex (Some "")) Sample.document Sample.tex ""
                  Sample.rejecting [Sample.rejecting] [] Sample.world eq_refl eq_refl)).
Defined.

Lemma consulting_operations_leave_world_witness :
  consults_only (OpProvideHoverOnTex Sample.document Sample.tex "") = true ∧
  Forall (λ s, during s = []) [Sample.answering] ∧
  world_of
    (exec Sample.collaborators
       (op_prog Sample.collaborators (OpProvideHoverOnTex Sample.document Sample.tex ""))
       [Sample.answering] Sample.world)
  = Sample.world.
Proof.
  assert (Hquiet : Forall (λ s, during s = []) [Sample.answering])
    by (apply Forall_cons; split; [reflexivity | apply Forall_nil; exact I]).
  split; [reflexivity|]. split; [exact Hquiet|].
  exact (consulting_operations_leave_world Sample.collaborators
           (OpProvideHoverOnTex Sample.document Sample.tex "")
           [Sample.answering] Sample.world eq_refl Hquiet).
Defined.

Lemma color_stays_in_sync_witness :
  in_sync Sample.world ∧
  in_sync
    (world_of
       (exec Sample.collaborators
          (op_prog Sample.collaborators (OpGenerateSVG Sample.tex None))
          [Sample.answering_while_theme_turns_dark; Sample.answering] Sample.world)) ∧
  w_theme
    (world_of
       (exec Sample.collaborators
          (op_prog Sample.collaborators (OpGenerateSVG Sample.tex None))
          [Sample.answering_while_theme_turns_dark; Sample.answering] Sample.world))
  = "dark".
Proof.
  split; [reflexivity|]. split; [|reflexivity].
  exact (proj1 (color_stays_in_sync Sample.collaborators Sample.world eq_refl)
           (OpGenerateSVG Sample.tex None)
           [Sample.answering_while_theme_turns_dark; Sample.answering]).
Defined.

Lemma refNumberMessage_tells_number_witness :
  refNumberMessage Sample.numbered_ref
  = refNumberMessage
      {| label := "eq:3"; documentation := "z"; file := "other.tex";
         position := Sample.origin;
         prevIndex := Some {| refNumber := "1"; pageNumber := "7" |} |} ∧
  refNumber <$> prevIndex Sample.numbered_ref = Some "1".
Proof.
  split; [reflexivity|].
  exact (refNumberMessage_tells_number Sample.numbered_ref
           {| label := "eq:3"; documentation := "z"; file := "other.tex";
              position := Sample.origin;
              prevIndex := Some {| refNumber := "1"; pageNumber := "7" |} |} eq_refl).
Defined.
